(** * product-sot: OCR source arbitration and image classification

    A shallow embedding of [src/ocr_engine.py], [src/cnn_model.py],
    [src/vector_db.py] and the endpoints of [app.py].

    Modelling conventions.
    - A Python [str] is a [string]; a character is a code point in
      U+0000..U+00FF (Latin-1), for which [str.lower], [str.strip] and
      [str.isspace] are given below exactly as CPython computes them.
    - A Python [float] is a rational in lowest terms ([Q] after [Qred]);
      the literals 0.95, 0.7, 0.8, 0.5 and 0.0 are the fractions they
      denote, and [/] is exact division: rounding, and the overflow of a
      quotient too large for a float, are outside the model.
    - The external services (the cloud vision call, the local OCR call,
      the classifier) are fields of a [World] record: each either returns
      a value or raises an [Exception].
    - Effects are threaded through a small monad carrying a state (the
      log of the engines consulted, or the classifier's two globals) and
      a possible raised exception. *)

From Stdlib Require Import List String Ascii Bool ZArith NArith QArith Lia.
From Stdlib Require Import Decimal DecimalString.
Import ListNotations.

Local Open Scope string_scope.

(** ** Python strings *)

Module PyStr.

(** [str.isspace] on one code point below U+0100. *)
Definition isspace (c : ascii) : bool :=
  let n := N_of_ascii c in
  ((9 <=? n) && (n <=? 13) || (28 <=? n) && (n <=? 32)
   || (n =? 133) || (n =? 160))%N.

(** [str.lower] on one code point below U+0100: A-Z and the accented
    capitals U+00C0..U+00DE (the multiplication sign U+00D7 apart) move up
    by 32, everything else is kept. *)
Definition lower_char (c : ascii) : ascii :=
  let n := N_of_ascii c in
  if ((65 <=? n) && (n <=? 90)
      || (192 <=? n) && (n <=? 222) && negb (n =? 215))%N
  then ascii_of_N (n + 32) else c.

Fixpoint smap (f : ascii -> ascii) (s : string) : string :=
  match s with
  | EmptyString => EmptyString
  | String c s' => String (f c) (smap f s')
  end.

Definition lower (s : string) : string := smap lower_char s.

Fixpoint lstrip (s : string) : string :=
  match s with
  | EmptyString => EmptyString
  | String c s' => if isspace c then lstrip s' else s
  end.

Fixpoint rstrip (s : string) : string :=
  match s with
  | EmptyString => EmptyString
  | String c s' =>
      match rstrip s' with
      | EmptyString => if isspace c then EmptyString else String c EmptyString
      | r => String c r
      end
  end.

(** [s.strip()] with no argument. *)
Definition strip (s : string) : string := rstrip (lstrip s).

(** [s.replace(old, new)] for one-character [old] and [new], the only way
    the program calls it. *)
Definition replace (old new : ascii) (s : string) : string :=
  smap (fun c => if Ascii.eqb c old then new else c) s.

(** Truth value of a string: non-empty. *)
Definition truthy (s : string) : bool :=
  match s with EmptyString => false | String _ _ => true end.

(** [sep.join(words)]. *)
Fixpoint join (sep : string) (words : list string) : string :=
  match words with
  | [] => EmptyString
  | [w] => w
  | w :: ws => w ++ sep ++ join sep ws
  end.

End PyStr.

(** ** Post-processing of the accepted text ([ocr_engine.py], lines 118-120) *)

Definition postprocess (extracted_text : string) : string :=
  let cleaned := PyStr.strip (PyStr.lower extracted_text) in
  PyStr.replace "5" "s" (PyStr.replace "1" "l" (PyStr.replace "0" "o" cleaned)).

(** The three replacements and the lowering, as one map on characters. *)
Definition clean_char (c : ascii) : ascii :=
  let r old new := fun x : ascii => if Ascii.eqb x old then new else x in
  r "5"%char "s"%char (r "1"%char "l"%char (r "0"%char "o"%char (PyStr.lower_char c))).

(** A string that does not begin with white space. *)
Definition no_leading_space (s : string) : Prop :=
  match s with EmptyString => True | String c _ => PyStr.isspace c = false end.

(** ** Python floats *)

Module PyFloat.

Definition fdiv (x y : Q) : Q := Qred (x / y).
Definition of_int (z : Z) : Q := inject_Z z.
Definition ge (x y : Q) : bool := Qle_bool y x.
Definition gt (x y : Q) : bool := negb (Qle_bool x y).
Definition lt (x y : Q) : bool := negb (Qle_bool y x).

End PyFloat.

(** ** Exceptions and the effect monad *)

(** An instance of Python's [Exception]; [str(e)] is its message. *)
Inductive exn : Type := Exception (msg : string).

Definition str (e : exn) : string := let 'Exception msg := e in msg.

Inductive outcome (A : Type) : Type :=
| Returns (a : A)
| Raises (e : exn).
Arguments Returns {A} a.
Arguments Raises {A} e.

(** One entry of the log: the [try] body of an engine wrapper was entered,
    that is, the engine was consulted. *)
Inductive event : Type := CloudOCR | LocalOCR.

(** Computations over a state [S] that return or raise. *)
Definition Eff (S A : Type) : Type := S -> outcome A * S.

Definition ret {S A} (a : A) : Eff S A := fun s => (Returns a, s).

Definition bind {S A B} (m : Eff S A) (k : A -> Eff S B) : Eff S B :=
  fun s =>
    match m s with
    | (Returns a, s') => k a s'
    | (Raises e, s') => (Raises e, s')
    end.

Definition lift {S A} (o : outcome A) : Eff S A := fun s => (o, s).

Definition get {S} : Eff S S := fun s => (Returns s, s).

Definition put {S} (s : S) : Eff S unit := fun _ => (Returns tt, s).

(** [try: body except Exception as e: handler e]. *)
Definition try_except {S A} (body : Eff S A) (handler : exn -> Eff S A)
  : Eff S A :=
  fun s =>
    match body s with
    | (Raises e, s') => handler e s'
    | r => r
    end.

(** The OCR routines run over the log of engines consulted so far. *)
Definition M (A : Type) : Type := Eff (list event) A.

Definition emit (ev : event) : M unit :=
  fun log => (Returns tt, (log ++ [ev])%list).

Notation "x <- m ;; k" := (bind m (fun x => k))
  (at level 61, m at next level, right associativity).
Notation "m ;;; k" := (bind m (fun _ => k))
  (at level 61, right associativity).

(** [for i in xs: s = body i s], stopping at the first exception. *)
Fixpoint for_in {I S : Type} (body : I -> S -> outcome S) (xs : list I) (s : S)
  : outcome S :=
  match xs with
  | [] => Returns s
  | i :: rest =>
      match body i s with
      | Returns s' => for_in body rest s'
      | Raises e => Raises e
      end
  end.

(** ** ocr_engine.py *)

Definition bytes : Type := list Init.Byte.byte.

(** The dictionary [pytesseract.image_to_data] returns, restricted to the
    two columns the program reads. The cells of [data_conf] are integers,
    as pytesseract produces them: [data_conf] holds the column after
    [int(...)], and a cell on which [int(...)] would raise is outside the
    model. *)
Record TessData : Type := { data_text : list string; data_conf : list Z }.

(** What lies outside the program. [generate_content] stands for lines
    33-44 of [ocr_with_gemini] and yields [response.text] ([None] or a
    string); [image_to_data] stands for lines 57-59 of
    [ocr_with_tesseract]. *)
Record World : Type := {
  GEMINI_API_KEY : option string;
  generate_content : bytes -> outcome (option string);
  image_to_data : bytes -> outcome TessData
}.

(** Truth value of [GEMINI_API_KEY]: set, and not the empty string. *)
Definition key_set (w : World) : bool :=
  match GEMINI_API_KEY w with
  | Some k => PyStr.truthy k
  | None => false
  end.

Module Engine.
(** The dictionary an engine wrapper returns. *)
Record t : Type := { text : string; confidence : Q; error : option string }.
End Engine.

Module Result.
(** The dictionary [extract_text_with_fallback] returns. *)
Record t : Type := {
  extracted_text : string;
  cleaned_text : string;
  confidence : Q;
  ocr_source : string;
  notes : string
}.

(** [result.update({"extracted_text": .., "ocr_source": .., "confidence": ..})] *)
Definition update (r : t) (txt src : string) (conf : Q) : t :=
  {| extracted_text := txt; cleaned_text := cleaned_text r;
     confidence := conf; ocr_source := src; notes := notes r |}.

Definition set_cleaned_text (r : t) (c : string) : t :=
  {| extracted_text := extracted_text r; cleaned_text := c;
     confidence := confidence r; ocr_source := ocr_source r;
     notes := notes r |}.

Definition set_notes (r : t) (n : string) : t :=
  {| extracted_text := extracted_text r; cleaned_text := cleaned_text r;
     confidence := confidence r; ocr_source := ocr_source r; notes := n |}.
End Result.

Definition failed (e : exn) : Engine.t :=
  {| Engine.text := ""; Engine.confidence := 0; Engine.error := Some (str e) |}.

Definition ocr_with_gemini (w : World) (image_bytes : bytes) : M Engine.t :=
  if negb (key_set w) then
    ret {| Engine.text := ""; Engine.confidence := 0;
           Engine.error := Some "No API key" |}
  else
    try_except
      (emit CloudOCR ;;;
       response_text <- lift (generate_content w image_bytes) ;;
       let text :=
         match response_text with
         | Some s => if PyStr.truthy s then PyStr.strip s else ""
         | None => ""
         end in
       let confidence := if (5 <? String.length text)%nat then 19 # 20 else 7 # 10 in
       ret {| Engine.text := text; Engine.confidence := confidence;
              Engine.error := None |})
      (fun e => ret (failed e)).

(** One turn of the loop of [ocr_with_tesseract] (lines 62-66). *)
Definition keep_word (data : TessData) (i : nat) (acc : list string * list Z)
  : outcome (list string * list Z) :=
  let '(words, confs) := acc in
  match nth_error (data_conf data) i with
  | None => Raises (Exception "list index out of range")
  | Some conf =>
      match nth_error (data_text data) i with
      | None => Raises (Exception "list index out of range")
      | Some t =>
          let word := PyStr.strip t in
          if (30 <? conf)%Z && PyStr.truthy word
          then Returns ((words ++ [word])%list, (confs ++ [conf])%list)
          else Returns acc
      end
  end.

Definition range (n : nat) : list nat := seq 0 n.

Definition sum (confs : list Z) : Z := fold_left Z.add confs 0%Z.

Definition ocr_with_tesseract (w : World) (image_bytes : bytes) : M Engine.t :=
  try_except
    (emit LocalOCR ;;;
     data <- lift (image_to_data w image_bytes) ;;
     acc <- lift (for_in (keep_word data)
                         (range (List.length (data_text data))) ([], [])) ;;
     let '(words, confs) := acc in
     let text := PyStr.join " " words in
     let avg_conf :=
       match confs with
       | [] => 0
       | _ => PyFloat.fdiv (PyFloat.of_int (sum confs))
                           (PyFloat.of_int (Z.of_nat (List.length confs)))
       end in
     ret {| Engine.text := text;
            Engine.confidence := PyFloat.fdiv avg_conf (100 # 1);
            Engine.error := None |})
    (fun e => ret (failed e)).

Definition low_confidence_note : string :=
  "low_confidence: result may be inaccurate".

Definition extract_text_with_fallback (w : World) (image_bytes : bytes)
  : M Result.t :=
  let result :=
    {| Result.extracted_text := ""; Result.cleaned_text := "";
       Result.confidence := 0; Result.ocr_source := "none";
       Result.notes := "" |} in
  result <-
    (if key_set w then
       gemini <- ocr_with_gemini w image_bytes ;;
       if PyFloat.ge (Engine.confidence gemini) (4 # 5) then
         ret (Result.update result (Engine.text gemini) "gemini"
                            (Engine.confidence gemini))
       else if PyStr.truthy (Engine.text gemini) then
         tesseract <- ocr_with_tesseract w image_bytes ;;
         if PyFloat.gt (Engine.confidence tesseract) (Engine.confidence gemini)
         then ret (Result.update result (Engine.text tesseract) "tesseract"
                                 (Engine.confidence tesseract))
         else ret (Result.update result (Engine.text gemini) "gemini"
                                 (Engine.confidence gemini))
       else
         tesseract <- ocr_with_tesseract w image_bytes ;;
         ret (Result.update result (Engine.text tesseract) "tesseract"
                            (Engine.confidence tesseract))
     else
       tesseract <- ocr_with_tesseract w image_bytes ;;
       ret (Result.update result (Engine.text tesseract) "tesseract"
                          (Engine.confidence tesseract))) ;;
  let cleaned := postprocess (Result.extracted_text result) in
  let result := Result.set_cleaned_text result cleaned in
  let result :=
    if PyFloat.lt (Result.confidence result) (1 # 2)
    then Result.set_notes result low_confidence_note
    else result in
  ret result.

(** ** cnn_model.py *)

(** A loaded Keras model, as an opaque handle. *)
Inductive Model : Type := KerasModel (handle : nat).

(** The label map after its keys are converted to integers. *)
Definition LabelMap : Type := list (Z * string).

(** [d.get(key, default)]. *)
Fixpoint dict_get (d : LabelMap) (key : Z) (default : string) : string :=
  match d with
  | [] => default
  | (k, v) :: d' => if (k =? key)%Z then v else dict_get d' key default
  end.

(** What [json.load] can return for the label file: an object, whose
    values are the labels, [null], or something else (a list, a string, a
    number, a Boolean). *)
Inductive LabelJson : Type :=
| JsonObject (fields : list (string * string))
| JsonNull
| JsonOther.

(** What the global [_label_map] can hold besides [None]: the dictionary
    with integer keys that line 36 builds, or what line 34 bound it to when
    line 36 raised: the object as read, its keys still strings, or a value
    that is no object. *)
Inductive LabelMapValue : Type :=
| Converted (d : LabelMap)
| RawObject (fields : list (string * string))
| RawOther.

(** The binding of line 34. *)
Definition bound_to (j : LabelJson) : option LabelMapValue :=
  match j with
  | JsonObject fields => Some (RawObject fields)
  | JsonNull => None
  | JsonOther => Some RawOther
  end.

(** The module's two globals. *)
Record Globals : Type := {
  _model : option Model;
  _label_map : option LabelMapValue
}.

(** What lies outside the classifier. [model_file] is [None] when
    [MODEL_PATH] does not exist and otherwise the outcome of
    [load_model]; [label_map_file] is [None] when [LABEL_MAP_PATH] does
    not exist and otherwise the outcome of opening the file and of
    [json.load] (lines 33-34); [py_int] is the built-in [int] on a key;
    [model_predict] stands for lines 52-60 and yields
    [(pred_class_id, confidence)]. *)
Record CnnWorld : Type := {
  model_file : option (outcome Model);
  label_map_file : option (outcome LabelJson);
  py_int : string -> outcome Z;
  model_predict : Model -> bytes -> outcome (Z * Q)
}.

(** One item of the comprehension of line 36. A key met again replaces
    the earlier entry: the new pair goes in front, where [dict_get] finds
    it first. *)
Definition convert_item (int : string -> outcome Z) (item : string * string)
  (d : LabelMap) : outcome LabelMap :=
  match int (fst item) with
  | Returns k => Returns ((k, snd item) :: d)
  | Raises e => Raises e
  end.

(** [{int(k): v for k, v in _label_map.items()}] on what line 34 bound. *)
Definition convert_keys (int : string -> outcome Z) (j : LabelJson)
  : outcome LabelMap :=
  match j with
  | JsonObject fields => for_in (convert_item int) fields []
  | JsonNull =>
      Raises (Exception "'NoneType' object has no attribute 'items'")
  | JsonOther => Raises (Exception "object has no attribute 'items'")
  end.

Definition load_resources (w : CnnWorld) : Eff Globals unit :=
  g <- get ;;
  (match _model g with
   | None =>
       match model_file w with
       | Some loaded =>
           m <- lift loaded ;;
           put {| _model := Some m; _label_map := _label_map g |}
       | None => ret tt
       end
   | Some _ => ret tt
   end) ;;;
  g <- get ;;
  match _label_map g with
  | None =>
      match label_map_file w with
      | Some loaded =>
          j <- lift loaded ;;
          put {| _model := _model g; _label_map := bound_to j |} ;;;
          d <- lift (convert_keys (py_int w) j) ;;
          put {| _model := _model g; _label_map := Some (Converted d) |}
      | None => ret tt
      end
  | Some _ => ret tt
  end.

(** [_label_map.get(key, default)] on what the global holds: an integer is
    never a key of the object as read, and a value that is no object has
    no [get]. *)
Definition label_map_get (m : LabelMapValue) (key : Z) (default : string)
  : outcome string :=
  match m with
  | Converted d => Returns (dict_get d key default)
  | RawObject _ => Returns default
  | RawOther => Raises (Exception "object has no attribute 'get'")
  end.

Definition predict_stockcode_from_image (w : CnnWorld) (image_bytes : bytes)
  : Eff Globals (string * Q) :=
  load_resources w ;;;
  g <- get ;;
  match _model g, _label_map g with
  | Some model, Some label_map =>
      try_except
        (p <- lift (model_predict w model image_bytes) ;;
         let '(pred_class_id, confidence) := p in
         stock_code <- lift (label_map_get label_map pred_class_id "UNKNOWN") ;;
         ret (stock_code, confidence))
        (fun e => ret ("ERROR", 0))
  | _, _ => ret ("ERROR", 0)
  end.

(** A stand-in for [int] on a key, for the sample worlds: the value of a
    non-empty string of the digits 0-9. *)
Fixpoint digits_value (s : string) (acc : Z) : option Z :=
  match s with
  | EmptyString => Some acc
  | String c s' =>
      let n := N_of_ascii c in
      if ((48 <=? n) && (n <=? 57))%N
      then digits_value s' (10 * acc + Z.of_N (n - 48))%Z
      else None
  end.

Definition digits_int (s : string) : outcome Z :=
  match s with
  | EmptyString => Raises (Exception "invalid literal for int() with base 10")
  | _ =>
      match digits_value s 0%Z with
      | Some z => Returns z
      | None => Raises (Exception "invalid literal for int() with base 10")
      end
  end.

(** ** The token filter of [ocr_with_tesseract], stated on tokens *)

(** A token as the local engine reports it: its text and its confidence. *)
Definition token : Type := (string * Z)%type.

Definition of_tokens (toks : list token) : TessData :=
  {| data_text := map fst toks; data_conf := map snd toks |}.

(** The test of line 64, on one token. *)
Definition kept (t : token) : bool :=
  (30 <? snd t)%Z && PyStr.truthy (PyStr.strip (fst t)).

Definition survivors (toks : list token) : list token := filter kept toks.

(** The word line 63 makes of a token. *)
Definition word_of (t : token) : string := PyStr.strip (fst t).

(** The specification's wording of the filter: a token is discarded when
    its confidence is below 30 or its text is empty. *)
Definition kept_as_stated (t : token) : bool :=
  negb ((snd t <? 30)%Z || negb (PyStr.truthy (fst t))).

Definition survivors_as_stated (toks : list token) : list token :=
  filter kept_as_stated toks.

(** The mean confidence of a list of tokens, as a fraction. *)
Definition mean_conf (toks : list token) : Q :=
  inject_Z (fold_right Z.add 0%Z (map snd toks))
  / inject_Z (Z.of_nat (List.length toks)).

(** ** Sample worlds *)

Definition no_image : bytes := [].

(** A world with the given key, cloud answer and local tokens. *)
Definition world_of (key : option string) (cloud : outcome (option string))
  (local : outcome TessData) : World :=
  {| GEMINI_API_KEY := key;
     generate_content := fun _ => cloud;
     image_to_data := fun _ => local |}.

Definition boom : exn := Exception "boom".

Definition sample_tokens : list token :=
  [("foo", 96%Z); (" ", 95%Z); ("bar ", 90%Z); ("hi", 30%Z); ("", 99%Z)].

Definition hello_world : World :=
  world_of (Some "key") (Returns (Some "Hello015")) (Raises boom).

Definition short_cloud_world : World :=
  world_of (Some "key") (Returns (Some "Hi")) (Returns (of_tokens sample_tokens)).

Definition keyless_world : World :=
  world_of None (Returns (Some "Hello015")) (Returns (of_tokens sample_tokens)).

Definition broken_world : World :=
  world_of (Some "key") (Raises boom) (Raises boom).

(** A keyless world whose local engine reports the given tokens. *)
Definition tokens_world (toks : list token) : World :=
  world_of None (Returns None) (Returns (of_tokens toks)).

Definition threshold_tokens : list token := [("hi", 30%Z)].

Definition blank_tokens : list token := [(" ", 90%Z)].

Definition no_classifier : CnnWorld :=
  {| model_file := None; label_map_file := None; py_int := digits_int;
     model_predict := fun _ _ => Raises boom |}.

Definition failing_classifier : CnnWorld :=
  {| model_file := Some (Returns (KerasModel 0));
     label_map_file := Some (Returns (JsonObject [("0", "lunch_bag")]));
     py_int := digits_int;
     model_predict := fun _ _ => Raises boom |}.

Definition no_globals : Globals := {| _model := None; _label_map := None |}.

(** ** Vocabulary for the statements about the arbitration *)

(** The three fields [update] copies from an engine's dictionary. *)
Definition from_engine (r : Result.t) (e : Engine.t) (src : string) : Prop :=
  Result.extracted_text r = Engine.text e
  /\ Result.ocr_source r = src
  /\ Result.confidence r = Engine.confidence e.

(** The cloud call gave nothing usable: it raised, or its response text is
    [None], empty or white space only. *)
Definition cloud_unusable (w : World) (image_bytes : bytes) : Prop :=
  match generate_content w image_bytes with
  | Raises _ => True
  | Returns None => True
  | Returns (Some s) => PyStr.strip s = ""
  end.

(** The characters of a string. *)
Definition chars (s : string) : list ascii := list_ascii_of_string s.

Definition blank_cloud_world : World :=
  world_of (Some "key") (Returns (Some "  ")) (Returns (of_tokens sample_tokens)).

(** A world whose local engine reports three texts but two confidences. *)
Definition ragged_world : World :=
  world_of None (Returns None)
    (Returns {| data_text := ["foo"; "bar"; "baz"];
                data_conf := [96%Z; 90%Z] |}).

Definition unlabelled_classifier : CnnWorld :=
  {| model_file := Some (Returns (KerasModel 0));
     label_map_file := Some (Returns (JsonObject [("0", "lunch_bag")]));
     py_int := digits_int;
     model_predict := fun _ _ => Returns (7%Z, 3 # 5) |}.

Definition unloadable_classifier : CnnWorld :=
  {| model_file := Some (Raises boom);
     label_map_file := Some (Returns (JsonObject [("0", "lunch_bag")]));
     py_int := digits_int;
     model_predict := fun _ _ => Returns (0%Z, 3 # 5) |}.

Definition loaded_globals : Globals :=
  {| _model := Some (KerasModel 0);
     _label_map := Some (Converted [(0%Z, "lunch_bag")]) |}.

(** What the loop keeps: non-empty words, and confidences above 30 taken
    from the confidence column, one per word. *)
Definition loop_invariant (data : TessData) (acc : list string * list Z)
  : Prop :=
  Forall (fun word => PyStr.truthy word = true) (fst acc)
  /\ Forall (fun c => (30 < c)%Z /\ In c (data_conf data)) (snd acc)
  /\ List.length (fst acc) = List.length (snd acc).

(** The confidence [ocr_with_tesseract] computes from the kept confidences
    (lines 68-69). *)
Definition local_confidence (confs : list Z) : Q :=
  PyFloat.fdiv
    (match confs with
     | [] => 0
     | _ => PyFloat.fdiv (PyFloat.of_int (sum confs))
                         (PyFloat.of_int (Z.of_nat (List.length confs)))
     end)
    (100 # 1).

(** ** Python values that cross the service boundaries *)

Local Set Warnings "-register-all".

Inductive value : Type :=
| VNone
| VBool (b : bool)
| VNum (q : Q)
| VStr (s : string)
| VList (items : list value)
| VDict (fields : list (string * value)).

Module PyVal.

Definition type_name (v : value) : string :=
  match v with
  | VNone => "NoneType"
  | VBool _ => "bool"
  | VNum _ => "float"
  | VStr _ => "str"
  | VList _ => "list"
  | VDict _ => "dict"
  end.

(** Truth value. *)
Definition truthy (v : value) : bool :=
  match v with
  | VNone => false
  | VBool b => b
  | VNum q => negb (Qeq_bool q 0)
  | VStr s => PyStr.truthy s
  | VList items => match items with [] => false | _ :: _ => true end
  | VDict fields => match fields with [] => false | _ :: _ => true end
  end.

Fixpoint lookup (fields : list (string * value)) (key : string) : option value :=
  match fields with
  | [] => None
  | (k, v) :: rest => if String.eqb k key then Some v else lookup rest key
  end.

(** [v.get(key, default)]: only a dictionary has the method. *)
Definition get (v : value) (key : string) (default : value) : outcome value :=
  match v with
  | VDict fields =>
      Returns (match lookup fields key with Some x => x | None => default end)
  | _ => Raises (Exception ("'" ++ type_name v
                            ++ "' object has no attribute 'get'"))
  end.

(** [v[key]] with a string key; the program applies it to dictionaries
    only, where a missing key is a [KeyError]. *)
Definition getitem (v : value) (key : string) : outcome value :=
  match v with
  | VDict fields =>
      match lookup fields key with
      | Some x => Returns x
      | None => Raises (Exception ("'" ++ key ++ "'"))
      end
  | _ => Raises (Exception ("'" ++ type_name v
                            ++ "' object is not subscriptable"))
  end.

(** The items [for x in v] runs over. *)
Definition iterate (v : value) : outcome (list value) :=
  match v with
  | VList items => Returns items
  | VDict fields => Returns (map (fun kv => VStr (fst kv)) fields)
  | VStr s =>
      Returns (map (fun c => VStr (String c EmptyString))
                   (list_ascii_of_string s))
  | _ => Raises (Exception ("'" ++ type_name v ++ "' object is not iterable"))
  end.

End PyVal.

(** Sequencing of outcomes. *)
Definition and_then {A B} (o : outcome A) (k : A -> outcome B) : outcome B :=
  match o with
  | Returns a => k a
  | Raises e => Raises e
  end.

Notation "x <~ o ;; k" := (and_then o (fun x => k))
  (at level 61, o at next level, right associativity).

(** [str(n)] for a natural number. *)
Definition str_nat (n : nat) : string := NilZero.string_of_uint (Nat.to_uint n).

(** ** vector_db.py and app.py *)

(** A connected [PineconeProductDB]. [index_query] stands for lines 46-53
    of [search]: the query is encoded and the index queried, which yields
    the results object or raises. *)
Record PineconeProductDB : Type := {
  index_query : value -> nat -> outcome value
}.

(** A row of the product catalogue, its cells as strings. *)
Record CatalogRow : Type := { Description : string; StockCode : string }.

(** The module-level state of [app.py] after start-up, with the worlds of
    the two engines behind it. [vector_db] is [None] when the connection
    failed; [df_products] is [None] when the catalogue could not be read
    and the name was never bound. *)
Record App : Type := {
  ocr_world : World;
  cnn_world : CnnWorld;
  vector_db : option PineconeProductDB;
  df_products : option (list CatalogRow)
}.

(** What a request can change or leave a trace in: the OCR engines
    consulted, the classifier's globals, and the searches attempted on the
    index (the [try] body of [search] was entered), each with its query
    and [top_k]. *)
Record AppState : Type := {
  ocr_log : list event;
  globals : Globals;
  queries : list (value * nat)
}.

Definition run_ocr {A} (m : M A) : Eff AppState A :=
  fun st =>
    let '(o, log) := m [] in
    (o, {| ocr_log := (ocr_log st ++ log)%list; globals := globals st;
           queries := queries st |}).

Definition run_cnn {A} (m : Eff Globals A) : Eff AppState A :=
  fun st =>
    let '(o, g) := m (globals st) in
    (o, {| ocr_log := ocr_log st; globals := g; queries := queries st |}).

Definition attempt (query : value) (top_k : nat) : Eff AppState unit :=
  fun st =>
    (Returns tt,
     {| ocr_log := ocr_log st; globals := globals st;
        queries := (queries st ++ [(query, top_k)])%list |}).

(** [PineconeProductDB.search]. *)
Definition search (self : PineconeProductDB) (query : value) (top_k : nat)
  : Eff AppState value :=
  try_except
    (attempt query top_k ;;;
     results <- lift (index_query self query top_k) ;;
     ret results)
    (fun e => ret (VDict [("matches", VList [])])).

(** One turn of the loop of [search_related_products] (lines 70-77). *)
Definition append_match (match_ : value) (matches : list value)
  : outcome (list value) :=
  meta <~ PyVal.get match_ "metadata" (VDict []) ;;
  stock_code <~ PyVal.getitem match_ "id" ;;
  description <~ PyVal.get meta "description" (VStr "N/A") ;;
  country <~ PyVal.get meta "country" (VStr "Unknown") ;;
  unit_price <~ PyVal.get meta "unit_price" (VNum 0) ;;
  score <~ PyVal.getitem match_ "score" ;;
  Returns (matches ++ [VDict [("stock_code", stock_code);
                              ("description", description);
                              ("country", country);
                              ("unit_price", unit_price);
                              ("score", score)]])%list.

Definition search_related_products (app : App) (query_text : value)
  (top_k : nat) : Eff AppState (list value) :=
  match vector_db app with
  | None => ret []
  | Some db =>
      results <- search db query_text top_k ;;
      lift (found <~ PyVal.get results "matches" (VList []) ;;
            items <~ PyVal.iterate found ;;
            for_in append_match items [])
  end.

(** A Flask response: the JSON body and the status code. *)
Record Response : Type := { body : value; status : nat }.

(** [recommend], given what [request.get_json()] returned. *)
Definition recommend (app : App) (data : value) : Eff AppState Response :=
  query <- lift (PyVal.get data "query" (VStr "")) ;;
  if negb (PyVal.truthy query) then
    ret {| body := VDict [("error", VStr "Empty query")]; status := 400 |}
  else
    products <- search_related_products app query 5 ;;
    ret {| body :=
             VDict [("response",
                     VStr ("Found " ++ str_nat (List.length products)
                           ++ " products."));
                    ("products", VList products)];
           status := 200 |}.

(** [recommend_ocr], given the uploaded file named "image", if any. *)
Definition recommend_ocr (app : App) (image : option bytes)
  : Eff AppState Response :=
  match image with
  | None =>
      ret {| body := VDict [("error", VStr "No image uploaded")];
             status := 400 |}
  | Some image_bytes =>
      ocr_result <-
        run_ocr (extract_text_with_fallback (ocr_world app) image_bytes) ;;
      let cleaned_text := Result.cleaned_text ocr_result in
      products <-
        (if PyStr.truthy cleaned_text
         then search_related_products app (VStr cleaned_text) 5
         else ret []) ;;
      ret {| body :=
               VDict [("extracted_text",
                       VStr (Result.extracted_text ocr_result));
                      ("confidence", VNum (Result.confidence ocr_result));
                      ("response", VStr ("Query: '" ++ cleaned_text ++ "'"));
                      ("products", VList products)];
             status := 200 |}
  end.

(** The catalogue's description as a class name (line 246). *)
Definition class_name (description : string) : string :=
  PyStr.replace " " "_" (PyStr.strip (PyStr.lower description)).

(** [detect_product], given the uploaded file named "image", if any. *)
Definition detect_product (app : App) (image : option bytes)
  : Eff AppState Response :=
  match image with
  | None =>
      ret {| body := VDict [("error", VStr "No image uploaded")];
             status := 400 |}
  | Some image_bytes =>
      try_except
        (p <- run_cnn (predict_stockcode_from_image (cnn_world app)
                                                    image_bytes) ;;
         let '(predicted_class, confidence) := p in
         if String.eqb predicted_class "UNKNOWN" then
           ret {| body :=
                    VDict [("detected_class", VStr "UNKNOWN");
                           ("products", VList []);
                           ("response",
                            VStr "Product could not be identified.")];
                  status := 200 |}
         else
           df <- lift (match df_products app with
                       | Some df => Returns df
                       | None =>
                           Raises (Exception
                                     "name 'df_products' is not defined")
                       end) ;;
           let product_row :=
             filter (fun row =>
                       String.eqb (class_name (Description row))
                                  (PyStr.lower predicted_class)) df in
           let '(description, real_stock_code) :=
             match product_row with
             | [] => (PyStr.replace "_" " " predicted_class, "UNKNOWN")
             | row :: _ => (Description row, StockCode row)
             end in
           related_products <-
             search_related_products app (VStr description) 5 ;;
           ret {| body :=
                    VDict [("detected_class", VStr real_stock_code);
                           ("detected_label", VStr predicted_class);
                           ("identified_description", VStr description);
                           ("confidence", VNum confidence);
                           ("response",
                            VStr ("Identified as: " ++ description));
                           ("products", VList related_products)];
                  status := 200 |})
        (fun e =>
           ret {| body :=
                    VDict [("detected_class", VStr "ERROR");
                           ("products", VList []);
                           ("response",
                            VStr "Product detection failed due to an internal error.")];
                  status := 500 |})
  end.

(** ** Sample indexes, catalogues and applications *)

Definition lunch_bag_match : value :=
  VDict [("id", VStr "22384"); ("score", VNum (9 # 10));
         ("metadata",
          VDict [("description", VStr "LUNCH BAG PINK POLKADOT");
                 ("unit_price", VNum (33 # 20))])].

Definition bare_match : value :=
  VDict [("id", VStr "85123A"); ("score", VNum (1 # 2))].

Definition sample_db : PineconeProductDB :=
  {| index_query := fun _ _ =>
       Returns (VDict [("matches", VList [lunch_bag_match; bare_match])]) |}.

Definition broken_db : PineconeProductDB :=
  {| index_query := fun _ _ => Raises boom |}.

Definition sample_catalog : list CatalogRow :=
  [{| Description := "ALARM CLOCK BAKELIKE RED "; StockCode := "22727" |};
   {| Description := "Lunch Bag Pink Polkadot"; StockCode := "22384" |}].

Definition fresh : AppState :=
  {| ocr_log := []; globals := no_globals; queries := [] |}.

Definition app_of (ocr : World) (cnn : CnnWorld)
  (db : option PineconeProductDB) : App :=
  {| ocr_world := ocr; cnn_world := cnn; vector_db := db;
     df_products := Some sample_catalog |}.

(** A classifier that recognises a lunch bag. *)
Definition lunch_bag_classifier : CnnWorld :=
  {| model_file := Some (Returns (KerasModel 0));
     label_map_file :=
       Some (Returns (JsonObject [("0", "lunch_bag_pink_polkadot")]));
     py_int := digits_int;
     model_predict := fun _ _ => Returns (0%Z, 3 # 5) |}.

(** ** Vocabulary for the statements about the application *)

(** The state after one more search was attempted. *)
Definition queried (st : AppState) (query : value) (top_k : nat) : AppState :=
  {| ocr_log := ocr_log st; globals := globals st;
     queries := (queries st ++ [(query, top_k)])%list |}.

(** The state after the OCR engines of [log] were consulted. *)
Definition consulted (st : AppState) (log : list event) : AppState :=
  {| ocr_log := (ocr_log st ++ log)%list; globals := globals st;
     queries := queries st |}.

(** The state with the classifier's globals replaced. *)
Definition with_globals (st : AppState) (g : Globals) : AppState :=
  {| ocr_log := ocr_log st; globals := g; queries := queries st |}.

(** The entry of a dictionary under a key, or a default. *)
Definition entry (v : value) (key : string) (default : value) : value :=
  match v with
  | VDict fields =>
      match PyVal.lookup fields key with Some x => x | None => default end
  | _ => default
  end.

(** A match the loop of [search_related_products] can digest: a
    dictionary with an "id" and a "score" whose "metadata", if present,
    is a dictionary. *)
Definition well_formed (m : value) : bool :=
  match m with
  | VDict fields =>
      match PyVal.lookup fields "id", PyVal.lookup fields "score" with
      | Some _, Some _ =>
          match PyVal.lookup fields "metadata" with
          | None | Some (VDict _) => true
          | Some _ => false
          end
      | _, _ => false
      end
  | _ => false
  end.

(** The product made of a well-formed match. *)
Definition product_of (m : value) : value :=
  let meta := entry m "metadata" (VDict []) in
  VDict [("stock_code", entry m "id" VNone);
         ("description", entry meta "description" (VStr "N/A"));
         ("country", entry meta "country" (VStr "Unknown"));
         ("unit_price", entry meta "unit_price" (VNum 0));
         ("score", entry m "score" VNone)].

(** The test of line 246 on one row of the catalogue. *)
Definition describes (predicted_class : string) (row : CatalogRow) : bool :=
  String.eqb (class_name (Description row)) (PyStr.lower predicted_class).

(** The three fixed responses of [detect_product] and the one of
    [recommend]. *)
Definition no_image_response : Response :=
  {| body := VDict [("error", VStr "No image uploaded")]; status := 400 |}.

Definition not_identified_response : Response :=
  {| body := VDict [("detected_class", VStr "UNKNOWN");
                    ("products", VList []);
                    ("response", VStr "Product could not be identified.")];
     status := 200 |}.

Definition internal_error_response : Response :=
  {| body := VDict [("detected_class", VStr "ERROR");
                    ("products", VList []);
                    ("response",
                     VStr "Product detection failed due to an internal error.")];
     status := 500 |}.

Definition empty_query_response : Response :=
  {| body := VDict [("error", VStr "Empty query")]; status := 400 |}.

(** The response of [detect_product] once a class is identified. *)
Definition identified_response (real_stock_code predicted_class
  description : string) (confidence : Q) (related_products : list value)
  : Response :=
  {| body := VDict [("detected_class", VStr real_stock_code);
                    ("detected_label", VStr predicted_class);
                    ("identified_description", VStr description);
                    ("confidence", VNum confidence);
                    ("response", VStr ("Identified as: " ++ description));
                    ("products", VList related_products)];
     status := 200 |}.

Definition headless_match : value := VDict [("score", VNum (1 # 2))].

Definition malformed_db : PineconeProductDB :=
  {| index_query := fun _ _ =>
       Returns (VDict [("matches", VList [lunch_bag_match; headless_match;
                                          bare_match])]) |}.

Definition unreadable_labels_classifier : CnnWorld :=
  {| model_file := Some (Returns (KerasModel 0));
     label_map_file := Some (Raises boom);
     py_int := digits_int;
     model_predict := fun _ _ => Returns (0%Z, 3 # 5) |}.

(** A label file with a key that is no integer. *)
Definition misnamed_labels : list (string * string) :=
  [("0", "lunch_bag"); ("one", "alarm_clock")].

Definition misnamed_labels_classifier : CnnWorld :=
  {| model_file := Some (Returns (KerasModel 0));
     label_map_file := Some (Returns (JsonObject misnamed_labels));
     py_int := digits_int;
     model_predict := fun _ _ => Returns (0%Z, 3 # 5) |}.

(** The application without a catalogue. *)
Definition uncatalogued_app : App :=
  {| ocr_world := keyless_world; cnn_world := lunch_bag_classifier;
     vector_db := Some sample_db; df_products := None |}.

(** A keyless world whose local engine reads one faint word. *)
Definition faint_world : World := tokens_world [("Tea", 35%Z)].

Section StringLemmas.

Import PyStr.

Ltac all_chars c := destruct c as [[] [] [] [] [] [] [] []]; reflexivity.

Lemma isspace_lower_char (c : ascii) : isspace (lower_char c) = isspace c.
Proof. all_chars c. Qed.

Lemma isspace_clean_char (c : ascii) : isspace (clean_char c) = isspace c.
Proof. all_chars c. Qed.

Lemma clean_char_idem (c : ascii) : clean_char (clean_char c) = clean_char c.
Proof. all_chars c. Qed.

Lemma smap_smap (f g : ascii -> ascii) (s : string) :
  smap f (smap g s) = smap (fun c => f (g c)) s.
Proof. induction s as [|c s IH]; simpl; [reflexivity | now rewrite IH]. Qed.

Lemma smap_ext (f g : ascii -> ascii) (s : string) :
  (forall c, f c = g c) -> smap f s = smap g s.
Proof.
  intros E. induction s as [|c s IH]; simpl; [reflexivity|].
  now rewrite E, IH.
Qed.

Variable f : ascii -> ascii.
Hypothesis f_space : forall c, isspace (f c) = isspace c.

Lemma lstrip_smap (s : string) : lstrip (smap f s) = smap f (lstrip s).
Proof.
  induction s as [|c s IH]; simpl; [reflexivity|].
  rewrite f_space. destruct (isspace c); [exact IH | reflexivity].
Qed.

Lemma rstrip_smap (s : string) : rstrip (smap f s) = smap f (rstrip s).
Proof.
  induction s as [|c s IH]; simpl; [reflexivity|].
  rewrite IH, f_space.
  destruct (rstrip s); simpl; [destruct (isspace c)|]; reflexivity.
Qed.

Lemma strip_smap (s : string) : strip (smap f s) = smap f (strip s).
Proof. unfold strip. now rewrite lstrip_smap, rstrip_smap. Qed.

End StringLemmas.

Section StripLemmas.

Import PyStr.

Lemma lstrip_no_leading (s : string) : no_leading_space (lstrip s).
Proof.
  induction s as [|c s IH]; simpl; [exact I|].
  destruct (isspace c) eqn:E; [exact IH | exact E].
Qed.

Lemma lstrip_fixed (s : string) : no_leading_space s -> lstrip s = s.
Proof. destruct s as [|c s]; simpl; [reflexivity | now intros ->]. Qed.

Lemma rstrip_no_leading (s : string) :
  no_leading_space s -> no_leading_space (rstrip s).
Proof.
  destruct s as [|c s]; simpl; [exact id|].
  intros E. destruct (rstrip s); simpl; [rewrite E; simpl|]; exact E.
Qed.

Lemma rstrip_idem (s : string) : rstrip (rstrip s) = rstrip s.
Proof.
  induction s as [|c s IH]; simpl; [reflexivity|].
  destruct (rstrip s) as [|d r] eqn:E.
  - destruct (isspace c) eqn:Ec; simpl; [reflexivity | now rewrite Ec].
  - change (rstrip (String c (String d r)))
      with (match rstrip (String d r) with
            | EmptyString =>
                if isspace c then EmptyString else String c EmptyString
            | x => String c x
            end).
    now rewrite IH.
Qed.

Lemma strip_idem (s : string) : strip (strip s) = strip s.
Proof.
  unfold strip.
  rewrite (lstrip_fixed (rstrip (lstrip s))).
  - apply rstrip_idem.
  - apply rstrip_no_leading, lstrip_no_leading.
Qed.

Lemma postprocess_as_map (s : string) :
  postprocess s = smap clean_char (strip s).
Proof.
  unfold postprocess, replace, lower.
  rewrite (strip_smap lower_char isspace_lower_char).
  rewrite !smap_smap. apply smap_ext. intros c. reflexivity.
Qed.

End StripLemmas.

(** ** Float comparisons *)

Section FloatLemmas.

Lemma ge_spec (x y : Q) : PyFloat.ge x y = true <-> y <= x.
Proof. unfold PyFloat.ge. apply Qle_bool_iff. Qed.

Lemma gt_spec (x y : Q) : PyFloat.gt x y = true <-> y < x.
Proof.
  unfold PyFloat.gt. rewrite negb_true_iff. split.
  - intros H. apply Qnot_le_lt. intros L.
    apply Qle_bool_iff in L. congruence.
  - intros H. destruct (Qle_bool x y) eqn:E; [|reflexivity].
    apply Qle_bool_iff in E. exfalso. exact (Qlt_not_le _ _ H E).
Qed.

Lemma lt_spec (x y : Q) : PyFloat.lt x y = true <-> x < y.
Proof. exact (gt_spec y x). Qed.

Lemma gt_false (x y : Q) : PyFloat.gt x y = false <-> x <= y.
Proof.
  unfold PyFloat.gt. rewrite negb_false_iff. apply Qle_bool_iff.
Qed.

Lemma ge_false (x y : Q) : PyFloat.ge x y = false <-> x < y.
Proof.
  destruct (PyFloat.ge x y) eqn:E; split; try congruence; intros H.
  - apply ge_spec in E. exfalso. exact (Qlt_not_le _ _ H E).
  - apply Qnot_le_lt. intros L. apply ge_spec in L. congruence.
Qed.

End FloatLemmas.

(** ** The engine wrappers *)

Section Wrappers.

Variable w : World.
Variable image_bytes : bytes.

Ltac run_wrapper :=
  unfold ocr_with_gemini, ocr_with_tesseract, try_except, bind, emit, lift, ret.

Lemma ocr_with_gemini_raises (e : exn) (log : list event) :
  key_set w = true ->
  generate_content w image_bytes = Raises e ->
  ocr_with_gemini w image_bytes log = (Returns (failed e), (log ++ [CloudOCR])%list).
Proof. intros K G. run_wrapper. now rewrite K, G. Qed.

Lemma ocr_with_gemini_returns (log : list event) :
  key_set w = true ->
  exists g,
    ocr_with_gemini w image_bytes log = (Returns g, (log ++ [CloudOCR])%list).
Proof.
  intros K. run_wrapper. rewrite K. simpl.
  destruct (generate_content w image_bytes); eexists; reflexivity.
Qed.

(** The text the cloud wrapper returns is the response text, stripped. *)
Lemma ocr_with_gemini_text (response_text : string) (log : list event) :
  key_set w = true ->
  generate_content w image_bytes = Returns (Some response_text) ->
  exists g,
    ocr_with_gemini w image_bytes log = (Returns g, (log ++ [CloudOCR])%list)
    /\ Engine.text g = PyStr.strip response_text
    /\ Engine.confidence g
       = (if (5 <? String.length (PyStr.strip response_text))%nat
          then 19 # 20 else 7 # 10).
Proof.
  intros K G. run_wrapper. rewrite K, G. simpl.
  destruct response_text as [|c s]; eexists; repeat split; reflexivity.
Qed.

Lemma ocr_with_tesseract_raises (e : exn) (log : list event) :
  image_to_data w image_bytes = Raises e ->
  ocr_with_tesseract w image_bytes log
  = (Returns (failed e), (log ++ [LocalOCR])%list).
Proof. intros T. run_wrapper. now rewrite T. Qed.

Lemma ocr_with_tesseract_loop_raises (data : TessData) (e : exn)
  (log : list event) :
  image_to_data w image_bytes = Returns data ->
  for_in (keep_word data) (range (List.length (data_text data))) ([], [])
  = Raises e ->
  ocr_with_tesseract w image_bytes log
  = (Returns (failed e), (log ++ [LocalOCR])%list).
Proof. intros T L. run_wrapper. now rewrite T, L. Qed.

Lemma ocr_with_tesseract_returns (log : list event) :
  exists t,
    ocr_with_tesseract w image_bytes log
    = (Returns t, (log ++ [LocalOCR])%list).
Proof.
  run_wrapper.
  destruct (image_to_data w image_bytes) as [data|e]; [|eexists; reflexivity].
  destruct (for_in _ _ _) as [[words confs]|e]; eexists; reflexivity.
Qed.

End Wrappers.

(** ** The arbitration routine *)

Section Arbitration.

Variable w : World.
Variable image_bytes : bytes.

Ltac run_extract := unfold extract_text_with_fallback, bind, ret.

(** C1: with a credential configured and a cloud confidence of at least
    0.8, the result's source is the cloud engine and its extracted text is
    the text [ocr_with_gemini] returned, unchanged; the local engine is not
    consulted. *)
Theorem C1_confident_cloud_accepted (g : Engine.t) (log : list event) :
  key_set w = true ->
  ocr_with_gemini w image_bytes [] = (Returns g, log) ->
  4 # 5 <= Engine.confidence g ->
  exists r,
    extract_text_with_fallback w image_bytes [] = (Returns r, log)
    /\ Result.ocr_source r = "gemini"
    /\ Result.extracted_text r = Engine.text g
    /\ Result.confidence r = Engine.confidence g
    /\ ~ In LocalOCR log.
Proof.
  intros K G C. apply ge_spec in C.
  run_extract. rewrite K, G, C. simpl.
  eexists. split; [reflexivity|].
  destruct (PyFloat.lt _ _); simpl; repeat split; try reflexivity.
  all: destruct (ocr_with_gemini_returns w image_bytes [] K) as [g' G'];
    rewrite G in G'; injection G' as _ ->; simpl; intros [H|[]]; discriminate.
Qed.

(** C2: with a credential configured, a cloud confidence in [0, 0.8) and a
    non-empty cloud text, the local engine is consulted too and the result
    takes text, source and confidence from the engine with the higher
    confidence, the cloud engine on a tie. *)
Theorem C2_compare_with_local (g t : Engine.t) (log1 log2 : list event) :
  key_set w = true ->
  ocr_with_gemini w image_bytes [] = (Returns g, log1) ->
  ocr_with_tesseract w image_bytes log1 = (Returns t, log2) ->
  0 <= Engine.confidence g ->
  Engine.confidence g < 4 # 5 ->
  Engine.text g <> "" ->
  exists r,
    extract_text_with_fallback w image_bytes [] = (Returns r, log2)
    /\ In LocalOCR log2
    /\ (Engine.confidence g < Engine.confidence t ->
        Result.extracted_text r = Engine.text t
        /\ Result.ocr_source r = "tesseract"
        /\ Result.confidence r = Engine.confidence t)
    /\ (Engine.confidence t <= Engine.confidence g ->
        Result.extracted_text r = Engine.text g
        /\ Result.ocr_source r = "gemini"
        /\ Result.confidence r = Engine.confidence g).
Proof.
  intros K G T _ C N. apply ge_false in C.
  assert (Tr : PyStr.truthy (Engine.text g) = true)
    by (destruct (Engine.text g); [contradiction | reflexivity]).
  assert (L : In LocalOCR log2).
  { destruct (ocr_with_tesseract_returns w image_bytes log1) as [t' T'].
    rewrite T in T'. injection T' as _ ->.
    apply in_or_app. right. now left. }
  run_extract. rewrite K, G, C, Tr, T.
  destruct (PyFloat.gt (Engine.confidence t) (Engine.confidence g)) eqn:E.
  - apply gt_spec in E. simpl. eexists. split; [reflexivity|].
    split; [exact L|]. split.
    + intros _. destruct (PyFloat.lt _ _); simpl; repeat split.
    + intros H. exfalso. exact (Qlt_not_le _ _ E H).
  - apply gt_false in E. simpl. eexists. split; [reflexivity|].
    split; [exact L|]. split.
    + intros H. exfalso. exact (Qlt_not_le _ _ H E).
    + intros _. destruct (PyFloat.lt _ _); simpl; repeat split.
Qed.

(** C5: with no credential configured, only the local engine is consulted
    and the result's source is the local engine. *)
Theorem C5_no_credential_local_only :
  key_set w = false ->
  exists r,
    extract_text_with_fallback w image_bytes [] = (Returns r, [LocalOCR])
    /\ Result.ocr_source r = "tesseract".
Proof.
  intros K. run_extract. rewrite K.
  destruct (ocr_with_tesseract_returns w image_bytes []) as [t T].
  rewrite T. simpl. eexists. split; [reflexivity|].
  destruct (PyFloat.lt _ _); reflexivity.
Qed.

(** The routine always returns, and its result comes from one of the four
    [update] branches. *)
Lemma extract_returns :
  exists r log,
    extract_text_with_fallback w image_bytes [] = (Returns r, log)
    /\ (Result.ocr_source r = "gemini" \/ Result.ocr_source r = "tesseract")
    /\ Result.notes r
       = (if PyFloat.lt (Result.confidence r) (1 # 2)
          then low_confidence_note else "").
Proof.
  run_extract. destruct (key_set w) eqn:K.
  - destruct (ocr_with_gemini_returns w image_bytes [] K) as [g G].
    rewrite G. simpl.
    destruct (ocr_with_tesseract_returns w image_bytes [CloudOCR]) as [t T].
    destruct (PyFloat.ge _ _).
    + simpl. do 2 eexists. split; [reflexivity|].
      destruct (PyFloat.lt _ _) eqn:E; simpl; rewrite ?E; auto.
    + destruct (PyStr.truthy _); rewrite T; [destruct (PyFloat.gt _ _)|];
        simpl; do 2 eexists; (split; [reflexivity|]);
        destruct (PyFloat.lt _ _) eqn:E; simpl; rewrite ?E; auto.
  - destruct (ocr_with_tesseract_returns w image_bytes []) as [t T].
    rewrite T. simpl. do 2 eexists. split; [reflexivity|].
    destruct (PyFloat.lt _ _) eqn:E; simpl; rewrite ?E; auto.
Qed.

End Arbitration.

(** C6: an exception raised inside either engine call is caught by that
    engine's wrapper, which then returns text [""] with confidence 0.0;
    neither wrapper raises, and neither does the arbitration routine. *)
Theorem C6_engine_exceptions_are_caught (w : World) (image_bytes : bytes) :
  (forall e log,
      key_set w = true ->
      generate_content w image_bytes = Raises e ->
      exists g log',
        ocr_with_gemini w image_bytes log = (Returns g, log')
        /\ Engine.text g = "" /\ Engine.confidence g = 0)
  /\ (forall e log,
         image_to_data w image_bytes = Raises e ->
         exists t log',
           ocr_with_tesseract w image_bytes log = (Returns t, log')
           /\ Engine.text t = "" /\ Engine.confidence t = 0)
  /\ (forall data e log,
         image_to_data w image_bytes = Returns data ->
         for_in (keep_word data) (range (List.length (data_text data))) ([], [])
         = Raises e ->
         exists t log',
           ocr_with_tesseract w image_bytes log = (Returns t, log')
           /\ Engine.text t = "" /\ Engine.confidence t = 0)
  /\ (forall log, exists g log',
         ocr_with_gemini w image_bytes log = (Returns g, log'))
  /\ (forall log, exists t log',
         ocr_with_tesseract w image_bytes log = (Returns t, log'))
  /\ (exists r log,
         extract_text_with_fallback w image_bytes [] = (Returns r, log)).
Proof.
  repeat split.
  - intros e log K G. do 2 eexists. split.
    + apply ocr_with_gemini_raises; eassumption.
    + split; reflexivity.
  - intros e log T. do 2 eexists. split.
    + apply ocr_with_tesseract_raises; eassumption.
    + split; reflexivity.
  - intros data e log T L. do 2 eexists. split.
    + eapply ocr_with_tesseract_loop_raises; eassumption.
    + split; reflexivity.
  - intros log. destruct (key_set w) eqn:K.
    + destruct (ocr_with_gemini_returns w image_bytes log K) as [g G]. eauto.
    + unfold ocr_with_gemini, ret. rewrite K. simpl. eauto.
  - intros log.
    destruct (ocr_with_tesseract_returns w image_bytes log) as [t T]. eauto.
  - destruct (extract_returns w image_bytes) as (r & log & E & _). eauto.
Qed.

(** C7: the result carries the low-confidence note exactly when its final
    confidence is below 0.5; at 0.5 or above the note field is left empty;
    the result is returned either way. *)
Theorem C7_note_iff_low_confidence (w : World) (image_bytes : bytes) :
  exists r log,
    extract_text_with_fallback w image_bytes [] = (Returns r, log)
    /\ (Result.notes r = low_confidence_note <-> Result.confidence r < 1 # 2)
    /\ (1 # 2 <= Result.confidence r -> Result.notes r = "").
Proof.
  destruct (extract_returns w image_bytes) as (r & log & E & _ & N).
  exists r, log. split; [exact E|].
  destruct (PyFloat.lt (Result.confidence r) (1 # 2)) eqn:L.
  - apply lt_spec in L. rewrite N. split; [tauto|].
    intros H. exfalso. exact (Qlt_not_le _ _ L H).
  - rewrite N. split; [split|reflexivity].
    + discriminate.
    + intros H. apply lt_spec in H. congruence.
Qed.

(** C10: in either configuration the returned record's source is one of
    the two engines; the initial ["none"] never survives. *)
Theorem C10_source_is_an_engine (w : World) (image_bytes : bytes) :
  exists r log,
    extract_text_with_fallback w image_bytes [] = (Returns r, log)
    /\ (Result.ocr_source r = "gemini" \/ Result.ocr_source r = "tesseract")
    /\ Result.ocr_source r <> "none".
Proof.
  destruct (extract_returns w image_bytes) as (r & log & E & S & _).
  exists r, log. split; [exact E|]. split; [exact S|].
  destruct S as [-> | ->]; discriminate.
Qed.

(** C4 (as amended): when the cloud engine returns "Hello015" with a
    credential configured, the text is accepted from the cloud engine with
    confidence 0.95, the cleaned text is "hellools", and no note is set. *)
Theorem C4_hello015 (w : World) (image_bytes : bytes) :
  key_set w = true ->
  generate_content w image_bytes = Returns (Some "Hello015") ->
  extract_text_with_fallback w image_bytes []
  = (Returns {| Result.extracted_text := "Hello015";
                Result.cleaned_text := "hellools";
                Result.confidence := 19 # 20;
                Result.ocr_source := "gemini";
                Result.notes := "" |},
     [CloudOCR]).
Proof.
  intros K G.
  unfold extract_text_with_fallback, ocr_with_gemini, try_except, bind, emit,
    lift, ret.
  rewrite K, G. reflexivity.
Qed.

(** C8: the post-processing is idempotent. *)
Theorem C8_postprocess_idempotent (s : string) :
  postprocess (postprocess s) = postprocess s.
Proof.
  rewrite !postprocess_as_map.
  rewrite (strip_smap clean_char isspace_clean_char).
  rewrite strip_idem, smap_smap.
  apply smap_ext, clean_char_idem.
Qed.

(** ** The token loop of the local engine *)

Section TokenLoop.

Lemma nth_error_map_middle {A B} (f : A -> B) (p q : list A) (x : A) :
  nth_error (map f (p ++ x :: q)) (List.length p) = Some (f x).
Proof. induction p as [|y p IH]; simpl; [reflexivity | exact IH]. Qed.

Lemma keep_word_at (p q : list token) (x : token)
  (words : list string) (confs : list Z) :
  keep_word (of_tokens (p ++ x :: q)) (List.length p) (words, confs)
  = Returns (if kept x
             then ((words ++ [word_of x])%list, (confs ++ [snd x])%list)
             else (words, confs)).
Proof.
  unfold keep_word, of_tokens, kept, word_of. simpl.
  rewrite !nth_error_map_middle.
  destruct ((30 <? snd x)%Z && PyStr.truthy (PyStr.strip (fst x)));
    reflexivity.
Qed.

(** Running the loop over the indices of a suffix [q] appends the kept
    tokens of [q] to the accumulators. *)
Lemma for_in_keep_word (q p : list token)
  (words : list string) (confs : list Z) :
  for_in (keep_word (of_tokens (p ++ q)))
         (seq (List.length p) (List.length q)) (words, confs)
  = Returns ((words ++ map word_of (survivors q))%list,
             (confs ++ map snd (survivors q))%list).
Proof.
  revert p words confs.
  induction q as [|x q IH]; intros p words confs.
  - simpl. now rewrite !app_nil_r.
  - cbn [List.length seq for_in]. rewrite keep_word_at.
    replace (p ++ x :: q)%list with ((p ++ [x]) ++ q)%list
      by (rewrite <- app_assoc; reflexivity).
    replace (S (List.length p)) with (List.length (p ++ [x])%list)
      by (rewrite length_app; simpl; lia).
    change (survivors (x :: q))
      with (if kept x then x :: survivors q else survivors q).
    destruct (kept x); rewrite IH; simpl; [|reflexivity].
    now rewrite <- !app_assoc.
Qed.

Lemma loop_on_tokens (toks : list token) :
  for_in (keep_word (of_tokens toks))
         (range (List.length (data_text (of_tokens toks)))) ([], [])
  = Returns (map word_of (survivors toks), map snd (survivors toks)).
Proof.
  unfold range. simpl. rewrite length_map.
  exact (for_in_keep_word toks [] [] []).
Qed.

Lemma sum_fold_right (confs : list Z) :
  sum confs = fold_right Z.add 0%Z confs.
Proof.
  unfold sum.
  assert (G : forall a, fold_left Z.add confs a
                        = (a + fold_right Z.add 0 confs)%Z).
  { induction confs as [|c confs IH]; intros a; simpl; [lia|].
    rewrite IH. lia. }
  now rewrite G.
Qed.

Lemma survivors_exactly (toks : list token) (t : token) :
  In t (survivors toks)
  <-> In t toks /\ (30 < snd t)%Z /\ PyStr.strip (fst t) <> "".
Proof.
  unfold survivors, kept. rewrite filter_In, andb_true_iff, Z.ltb_lt.
  destruct (PyStr.strip (fst t)); simpl; intuition congruence.
Qed.

End TokenLoop.

(** C3 (as amended): [ocr_with_tesseract] keeps exactly the tokens whose
    confidence is above 30 and whose text is non-empty once stripped, and
    returns the mean confidence of the kept tokens divided by 100, or 0.0
    when none is kept. *)
Theorem C3_filter_and_mean (w : World) (image_bytes : bytes)
  (toks : list token) :
  image_to_data w image_bytes = Returns (of_tokens toks) ->
  exists r,
    ocr_with_tesseract w image_bytes [] = (Returns r, [LocalOCR])
    /\ (forall t, In t (survivors toks)
                  <-> In t toks /\ (30 < snd t)%Z
                      /\ PyStr.strip (fst t) <> "")
    /\ Engine.text r = PyStr.join " " (map word_of (survivors toks))
    /\ (survivors toks = [] -> Engine.confidence r = 0)
    /\ (survivors toks <> [] ->
        Engine.confidence r == mean_conf (survivors toks) / (100 # 1)).
Proof.
  intros T.
  unfold ocr_with_tesseract, try_except, bind, emit, lift, ret.
  rewrite T, loop_on_tokens. simpl.
  eexists. split; [reflexivity|].
  split; [apply survivors_exactly|]. simpl.
  split; [reflexivity|]. split.
  - intros ->. reflexivity.
  - intros N. destruct (survivors toks) as [|t0 ts] eqn:S; [contradiction|].
    unfold PyFloat.fdiv, PyFloat.of_int, mean_conf. cbn [map].
    rewrite !Qred_correct, sum_fold_right.
    change (snd t0 :: map snd ts) with (map snd (t0 :: ts)).
    rewrite length_map. reflexivity.
Qed.

(** ** The image classifier *)

Section Classifier.

Variable w : CnnWorld.
Variable image_bytes : bytes.

Ltac run_predict :=
  unfold predict_stockcode_from_image, try_except, bind, get, lift, ret.

Lemma dict_get_default (d : LabelMap) (key : Z) (default : string) :
  (forall v, ~ In (key, v) d) -> dict_get d key default = default.
Proof.
  induction d as [|[k v] d IH]; simpl; intros N; [reflexivity|].
  destruct (k =? key)%Z eqn:E.
  - apply Z.eqb_eq in E. subst k. exfalso. apply (N v). now left.
  - apply IH. intros v' H. apply (N v'). now right.
Qed.

(** "UNKNOWN" is the default of the label lookup: it is returned, with the
    classifier's own confidence, when the predicted class has no label. *)
Lemma unknown_for_unlabelled_class (g0 g1 : Globals) (m : Model)
  (d : LabelMap) (id : Z) (c : Q) :
  load_resources w g0 = (Returns tt, g1) ->
  _model g1 = Some m ->
  _label_map g1 = Some (Converted d) ->
  model_predict w m image_bytes = Returns (id, c) ->
  (forall v, ~ In (id, v) d) ->
  predict_stockcode_from_image w image_bytes g0 = (Returns ("UNKNOWN", c), g1).
Proof.
  intros L Hm Hd P N. run_predict. rewrite L, Hm, Hd, P. simpl.
  now rewrite (dict_get_default d id "UNKNOWN" N).
Qed.

(** C9 (as amended): when loading raises no exception and the model or the
    label map is still not loaded afterwards, or inference raises, the
    classifier returns the label "ERROR" with confidence 0.0. *)
Theorem C9_failure_returns_error (g0 g1 : Globals) :
  load_resources w g0 = (Returns tt, g1) ->
  (_model g1 = None
   \/ _label_map g1 = None
   \/ exists m e,
        _model g1 = Some m /\ model_predict w m image_bytes = Raises e) ->
  predict_stockcode_from_image w image_bytes g0 = (Returns ("ERROR", 0), g1).
Proof.
  intros L F. run_predict. rewrite L.
  destruct F as [Hm | [Hd | (m & e & Hm & P)]].
  - now rewrite Hm.
  - rewrite Hd. now destruct (_model g1).
  - rewrite Hm. destruct (_label_map g1); [|reflexivity].
    now rewrite P.
Qed.

End Classifier.

(** ** The claims at concrete inputs *)

(** C1 at [hello_world]: the cloud text "Hello015" is accepted as it is. *)
Lemma C1_witness :
  key_set hello_world = true
  /\ exists r,
       extract_text_with_fallback hello_world no_image []
       = (Returns r, [CloudOCR])
       /\ Result.ocr_source r = "gemini"
       /\ Result.extracted_text r = "Hello015"
       /\ Result.confidence r = 19 # 20
       /\ ~ In LocalOCR [CloudOCR].
Proof.
  split; [reflexivity|].
  apply (C1_confident_cloud_accepted hello_world no_image
           {| Engine.text := "Hello015"; Engine.confidence := 19 # 20;
              Engine.error := None |} [CloudOCR]).
  - reflexivity.
  - reflexivity.
  - unfold Qle. simpl. lia.
Defined.

(** C2 at [short_cloud_world]: cloud "Hi" at 0.7 loses to local "foo bar" at 0.93. *)
Lemma C2_witness :
  ocr_with_gemini short_cloud_world no_image []
  = (Returns {| Engine.text := "Hi"; Engine.confidence := 7 # 10;
                Engine.error := None |}, [CloudOCR])
  /\ exists r,
       extract_text_with_fallback short_cloud_world no_image []
       = (Returns r, [CloudOCR; LocalOCR])
       /\ In LocalOCR [CloudOCR; LocalOCR]
       /\ (7 # 10 < 93 # 100 ->
           Result.extracted_text r = "foo bar"
           /\ Result.ocr_source r = "tesseract"
           /\ Result.confidence r = 93 # 100)
       /\ (93 # 100 <= 7 # 10 ->
           Result.extracted_text r = "Hi"
           /\ Result.ocr_source r = "gemini"
           /\ Result.confidence r = 7 # 10).
Proof.
  split; [reflexivity|].
  apply (C2_compare_with_local short_cloud_world no_image
           {| Engine.text := "Hi"; Engine.confidence := 7 # 10;
              Engine.error := None |}
           {| Engine.text := "foo bar"; Engine.confidence := 93 # 100;
              Engine.error := None |}
           [CloudOCR] [CloudOCR; LocalOCR]).
  - reflexivity.
  - reflexivity.
  - reflexivity.
  - unfold Qle. simpl. lia.
  - unfold Qlt. simpl. lia.
  - discriminate.
Defined.

(** C3 at [sample_tokens]: two of the five tokens are kept. *)
Lemma C3_witness :
  survivors sample_tokens = [("foo", 96%Z); ("bar ", 90%Z)]
  /\ exists r,
       ocr_with_tesseract keyless_world no_image [] = (Returns r, [LocalOCR])
       /\ (forall t, In t (survivors sample_tokens)
                     <-> In t sample_tokens /\ (30 < snd t)%Z
                         /\ PyStr.strip (fst t) <> "")
       /\ Engine.text r
          = PyStr.join " " (map word_of (survivors sample_tokens))
       /\ (survivors sample_tokens = [] -> Engine.confidence r = 0)
       /\ (survivors sample_tokens <> [] ->
           Engine.confidence r
           == mean_conf (survivors sample_tokens) / (100 # 1)).
Proof.
  split; [reflexivity|].
  apply (C3_filter_and_mean keyless_world no_image sample_tokens).
  reflexivity.
Defined.

(** C4 at [hello_world]. *)
Lemma C4_witness :
  key_set hello_world = true
  /\ extract_text_with_fallback hello_world no_image []
     = (Returns {| Result.extracted_text := "Hello015";
                   Result.cleaned_text := "hellools";
                   Result.confidence := 19 # 20;
                   Result.ocr_source := "gemini";
                   Result.notes := "" |},
        [CloudOCR]).
Proof.
  split; [reflexivity|].
  apply (C4_hello015 hello_world no_image); reflexivity.
Defined.

(** C5 at [keyless_world]. *)
Lemma C5_witness :
  key_set keyless_world = false
  /\ exists r,
       extract_text_with_fallback keyless_world no_image []
       = (Returns r, [LocalOCR])
       /\ Result.ocr_source r = "tesseract".
Proof.
  split; [reflexivity|].
  apply (C5_no_credential_local_only keyless_world no_image). reflexivity.
Defined.

(** C6 at [broken_world], where both engines raise. *)
Lemma C6_witness :
  generate_content broken_world no_image = Raises boom
  /\ image_to_data broken_world no_image = Raises boom
  /\ (exists g log',
         ocr_with_gemini broken_world no_image [] = (Returns g, log')
         /\ Engine.text g = "" /\ Engine.confidence g = 0)
  /\ (exists t log',
         ocr_with_tesseract broken_world no_image [] = (Returns t, log')
         /\ Engine.text t = "" /\ Engine.confidence t = 0).
Proof.
  split; [reflexivity|]. split; [reflexivity|]. split.
  - apply (proj1 (C6_engine_exceptions_are_caught broken_world no_image)
             boom []); reflexivity.
  - apply (proj1 (proj2
             (C6_engine_exceptions_are_caught broken_world no_image))
             boom []); reflexivity.
Defined.

(** C9 at [no_classifier], where neither file exists. *)
Lemma C9_witness :
  load_resources no_classifier no_globals = (Returns tt, no_globals)
  /\ predict_stockcode_from_image no_classifier no_image no_globals
     = (Returns ("ERROR", 0), no_globals).
Proof.
  split; [reflexivity|].
  apply (C9_failure_returns_error no_classifier no_image no_globals no_globals).
  - reflexivity.
  - left. reflexivity.
Defined.

(** ** Where the specification's wording and the program part *)

(** C3 as worded fails: a token of confidence exactly 30 and a token of
    blank text both survive the worded filter, yet the program drops them
    and reports confidence 0.0 where the worded mean is 0.3 and 0.9. *)
Lemma C3_counterexample :
  (survivors_as_stated threshold_tokens = threshold_tokens
   /\ ocr_with_tesseract (tokens_world threshold_tokens) no_image []
      = (Returns {| Engine.text := ""; Engine.confidence := 0;
                    Engine.error := None |}, [LocalOCR])
   /\ ~ 0 == mean_conf (survivors_as_stated threshold_tokens) / (100 # 1))
  /\ (survivors_as_stated blank_tokens = blank_tokens
      /\ ocr_with_tesseract (tokens_world blank_tokens) no_image []
         = (Returns {| Engine.text := ""; Engine.confidence := 0;
                       Engine.error := None |}, [LocalOCR])
      /\ ~ 0 == mean_conf (survivors_as_stated blank_tokens) / (100 # 1)).
Proof.
  repeat split; intros H; vm_compute in H; discriminate.
Qed.

(** C4 as worded fails: the cleaned text of "Hello015" has no space. *)
Lemma C4_counterexample :
  exists r,
    extract_text_with_fallback hello_world no_image []
    = (Returns r, [CloudOCR])
    /\ Result.cleaned_text r = "hellools"
    /\ Result.cleaned_text r <> "hello ols".
Proof.
  eexists. split; [reflexivity|]. split; [reflexivity | discriminate].
Qed.

(** C9 as worded fails: with no model file, and with a model whose
    inference raises, the label returned is "ERROR", not "UNKNOWN"; and
    with a model file that is there but fails to load, nothing is returned
    at all: the exception of the load leaves the function. *)
Lemma C9_counterexample :
  (_model no_globals = None
   /\ fst (predict_stockcode_from_image no_classifier no_image no_globals)
      = Returns ("ERROR", 0)
   /\ fst (predict_stockcode_from_image no_classifier no_image no_globals)
      <> Returns ("UNKNOWN", 0))
  /\ (model_predict failing_classifier (KerasModel 0) no_image = Raises boom
      /\ fst (predict_stockcode_from_image failing_classifier no_image
                no_globals)
         = Returns ("ERROR", 0)
      /\ fst (predict_stockcode_from_image failing_classifier no_image
                no_globals)
         <> Returns ("UNKNOWN", 0))
  /\ (model_file unloadable_classifier = Some (Raises boom)
      /\ fst (predict_stockcode_from_image unloadable_classifier no_image
                no_globals)
         = Raises boom
      /\ fst (predict_stockcode_from_image unloadable_classifier no_image
                no_globals)
         <> Returns ("UNKNOWN", 0)).
Proof.
  repeat split; discriminate.
Qed.

(** * Further properties of the code *)

(** ** The local engine's result, for any data *)

Section LocalEngine.

Import PyStr.

Lemma for_in_preserves {I S : Type} (P : S -> Prop)
  (body : I -> S -> outcome S) (xs : list I) :
  (forall i s s', P s -> body i s = Returns s' -> P s') ->
  forall s r, P s -> for_in body xs s = Returns r -> P r.
Proof.
  intros B. induction xs as [|i xs IH]; simpl; intros s r Ps E.
  - now injection E as <-.
  - destruct (body i s) as [s'|e] eqn:Eb; [|discriminate].
    exact (IH s' r (B i s s' Ps Eb) E).
Qed.

Lemma keep_word_invariant (data : TessData) (i : nat)
  (acc acc' : list string * list Z) :
  loop_invariant data acc ->
  keep_word data i acc = Returns acc' ->
  loop_invariant data acc'.
Proof.
  destruct acc as [words confs]. unfold keep_word, loop_invariant. simpl.
  intros (W & C & L).
  destruct (nth_error (data_conf data) i) as [conf|] eqn:Ec; [|discriminate].
  destruct (nth_error (data_text data) i) as [t|]; [|discriminate].
  destruct ((30 <? conf)%Z && truthy (strip t)) eqn:K; intros E;
    injection E as <-; simpl; [|auto].
  apply andb_true_iff in K. destruct K as [K1 K2]. apply Z.ltb_lt in K1.
  repeat split.
  - apply Forall_app. split; [exact W | now constructor].
  - apply Forall_app. split; [exact C|]. constructor; [|constructor].
    split; [exact K1 | exact (nth_error_In _ _ Ec)].
  - rewrite !length_app. simpl. lia.
Qed.

Lemma loop_keeps_invariant (data : TessData) (xs : list nat)
  (acc : list string * list Z) :
  for_in (keep_word data) xs ([], []) = Returns acc ->
  loop_invariant data acc.
Proof.
  apply (for_in_preserves (loop_invariant data)).
  - intros i s s'. apply keep_word_invariant.
  - repeat split; constructor.
Qed.

Lemma join_empty (words : list string) :
  Forall (fun word => truthy word = true) words ->
  (join " " words = "" <-> words = []).
Proof.
  intros W. split; [|now intros ->].
  destruct words as [|word ws]; [reflexivity|].
  inversion W as [|? ? T _]; subst.
  destruct word as [|c word]; [discriminate|].
  destruct ws; simpl; discriminate.
Qed.

End LocalEngine.

Section LocalConfidence.

Lemma ocr_with_tesseract_ok (w : World) (image_bytes : bytes)
  (data : TessData) (words : list string) (confs : list Z)
  (log : list event) :
  image_to_data w image_bytes = Returns data ->
  for_in (keep_word data) (range (List.length (data_text data))) ([], [])
  = Returns (words, confs) ->
  ocr_with_tesseract w image_bytes log
  = (Returns {| Engine.text := PyStr.join " " words;
                Engine.confidence := local_confidence confs;
                Engine.error := None |},
     (log ++ [LocalOCR])%list).
Proof.
  intros T L.
  unfold ocr_with_tesseract, try_except, bind, emit, lift, ret.
  now rewrite T, L.
Qed.

Lemma sum_above (lo : Z) (confs : list Z) :
  Forall (fun c => (lo < c)%Z) confs -> confs <> [] ->
  (lo * Z.of_nat (List.length confs) < sum confs)%Z.
Proof.
  rewrite sum_fold_right. intros F.
  induction F as [|c confs Hc F IH]; [contradiction|]. intros _.
  cbn [List.length fold_right]. rewrite Nat2Z.inj_succ.
  destruct confs as [|c' confs]; [simpl; lia|].
  assert (c' :: confs <> []) as N by discriminate.
  specialize (IH N). lia.
Qed.

Lemma sum_below (hi : Z) (confs : list Z) :
  Forall (fun c => (c <= hi)%Z) confs ->
  (sum confs <= hi * Z.of_nat (List.length confs))%Z.
Proof.
  rewrite sum_fold_right. intros F.
  induction F as [|c confs Hc F IH]; [simpl; lia|].
  cbn [List.length fold_right]. rewrite Nat2Z.inj_succ. lia.
Qed.

Lemma local_confidence_mean (confs : list Z) :
  confs <> [] ->
  local_confidence confs
  == inject_Z (sum confs) / inject_Z (Z.of_nat (List.length confs))
     / (100 # 1).
Proof.
  intros N. unfold local_confidence, PyFloat.fdiv, PyFloat.of_int.
  destruct confs as [|c confs]; [contradiction|].
  now rewrite !Qred_correct.
Qed.

Lemma mean_above (k s n : Z) :
  (0 < n)%Z -> (k * n < s)%Z ->
  inject_Z k / (100 # 1) < inject_Z s / inject_Z n / (100 # 1).
Proof.
  intros Hn H. apply Qmult_lt_compat_r; [reflexivity|].
  apply Qlt_shift_div_l.
  - change 0 with (inject_Z 0). now rewrite <- Zlt_Qlt.
  - rewrite <- inject_Z_mult. now rewrite <- Zlt_Qlt.
Qed.

Lemma mean_below (k s n : Z) :
  (0 < n)%Z -> (s <= k * n)%Z ->
  inject_Z s / inject_Z n / (100 # 1) <= inject_Z k / (100 # 1).
Proof.
  intros Hn H. apply Qmult_le_compat_r; [|discriminate].
  apply Qle_shift_div_r.
  - change 0 with (inject_Z 0). now rewrite <- Zlt_Qlt.
  - rewrite <- inject_Z_mult. now rewrite <- Zle_Qle.
Qed.

Lemma length_pos {A} (l : list A) : l <> [] -> (0 < Z.of_nat (List.length l))%Z.
Proof. destruct l; [contradiction | simpl; lia]. Qed.

Lemma local_confidence_above (confs : list Z) :
  confs <> [] -> Forall (fun c => (30 < c)%Z) confs ->
  3 # 10 < local_confidence confs.
Proof.
  intros N F. rewrite (local_confidence_mean confs N).
  apply Qle_lt_trans with (inject_Z 30 / (100 # 1)).
  - unfold Qle. simpl. lia.
  - apply mean_above; [now apply length_pos | now apply sum_above].
Qed.

Lemma local_confidence_below (confs : list Z) :
  Forall (fun c => (c <= 100)%Z) confs -> local_confidence confs <= 1.
Proof.
  intros F. destruct confs as [|c cs]; [discriminate|].
  assert (N : c :: cs <> []) by discriminate.
  rewrite (local_confidence_mean _ N).
  apply Qle_trans with (inject_Z 100 / (100 # 1)).
  - apply mean_below; [now apply length_pos | now apply sum_below].
  - unfold Qle. simpl. lia.
Qed.

End LocalConfidence.

Section LocalEngineResults.

Variable w : World.
Variable image_bytes : bytes.

Lemma for_in_app {I S : Type} (body : I -> S -> outcome S)
  (xs ys : list I) (s : S) :
  for_in body (xs ++ ys) s
  = match for_in body xs s with
    | Returns s' => for_in body ys s'
    | Raises e => Raises e
    end.
Proof.
  revert s. induction xs as [|i xs IH]; intros s; simpl; [reflexivity|].
  destruct (body i s); [apply IH | reflexivity].
Qed.

Lemma loop_in_range (data : TessData) (k a : nat)
  (acc : list string * list Z) :
  (a + k <= List.length (data_conf data))%nat ->
  (a + k <= List.length (data_text data))%nat ->
  exists r, for_in (keep_word data) (seq a k) acc = Returns r.
Proof.
  revert a acc. induction k as [|k IH]; intros a acc Hc Ht; simpl;
    [eauto|].
  destruct acc as [words confs]. unfold keep_word at 1.
  destruct (nth_error (data_conf data) a) as [conf|] eqn:Ec;
    [|apply nth_error_None in Ec; lia].
  destruct (nth_error (data_text data) a) as [t|] eqn:Et;
    [|apply nth_error_None in Et; lia].
  destruct ((30 <? conf)%Z && PyStr.truthy (PyStr.strip t));
    apply IH; lia.
Qed.

Lemma loop_out_of_range (data : TessData) :
  (List.length (data_conf data) < List.length (data_text data))%nat ->
  for_in (keep_word data) (range (List.length (data_text data))) ([], [])
  = Raises (Exception "list index out of range").
Proof.
  intros H. unfold range.
  replace (List.length (data_text data))
    with (List.length (data_conf data)
          + S (List.length (data_text data)
               - S (List.length (data_conf data))))%nat by lia.
  rewrite seq_app, for_in_app.
  destruct (loop_in_range data (List.length (data_conf data)) 0 ([], []))
    as [[words confs] E]; [lia | lia |].
  rewrite E. simpl. unfold keep_word.
  destruct (nth_error (data_conf data) (List.length (data_conf data)))
    eqn:Ec; [|reflexivity].
  assert (nth_error (data_conf data) (List.length (data_conf data)) = None)
    by (apply nth_error_None; lia).
  congruence.
Qed.

Lemma local_result_shape (log : list event) :
  exists t,
    ocr_with_tesseract w image_bytes log
    = (Returns t, (log ++ [LocalOCR])%list)
    /\ (Engine.text t = "" <-> Engine.confidence t = 0)
    /\ (Engine.text t <> "" -> 3 # 10 < Engine.confidence t)
    /\ 0 <= Engine.confidence t.
Proof.
  assert (F : forall e,
    (Engine.text (failed e) = "" <-> Engine.confidence (failed e) = 0)
    /\ (Engine.text (failed e) <> "" -> 3 # 10 < Engine.confidence (failed e))
    /\ 0 <= Engine.confidence (failed e)).
  { intros e. simpl. repeat split; try discriminate. contradiction. }
  destruct (image_to_data w image_bytes) as [data|e] eqn:T.
  2:{ eexists. split; [apply ocr_with_tesseract_raises; exact T | apply F]. }
  destruct (for_in (keep_word data) (range (List.length (data_text data)))
              ([], [])) as [[words confs]|e] eqn:L.
  2:{ eexists. split; [apply (ocr_with_tesseract_loop_raises _ _ data); eassumption
                      | apply F]. }
  eexists. split; [apply (ocr_with_tesseract_ok _ _ data); eassumption|]. simpl.
  destruct (loop_keeps_invariant _ _ _ L) as (W & C & Len). simpl in *.
  assert (C30 : Forall (fun c => (30 < c)%Z) confs)
    by (eapply Forall_impl; [|exact C]; simpl; tauto).
  destruct confs as [|c cs].
  - destruct words; [|discriminate]. simpl.
    repeat split; try discriminate. contradiction.
  - assert (N : c :: cs <> []) by discriminate.
    pose proof (local_confidence_above _ N C30) as A.
    assert (Nw : words <> []) by (destruct words; discriminate).
    assert (Nt : PyStr.join " " words <> "")
      by (intros E; apply (join_empty words W) in E; contradiction).
    repeat split.
    + intros E. contradiction.
    + intros E. rewrite E in A. discriminate.
    + intros _. exact A.
    + apply Qlt_le_weak. apply Qlt_trans with (3 # 10); [reflexivity | exact A].
Qed.

Lemma local_result_bounded (log : list event) :
  (forall data, image_to_data w image_bytes = Returns data ->
                Forall (fun c => (c <= 100)%Z) (data_conf data)) ->
  exists t,
    ocr_with_tesseract w image_bytes log
    = (Returns t, (log ++ [LocalOCR])%list)
    /\ 0 <= Engine.confidence t <= 1.
Proof.
  intros B.
  destruct (image_to_data w image_bytes) as [data|e] eqn:T.
  2:{ eexists. split; [apply ocr_with_tesseract_raises; exact T|].
      simpl. split; discriminate. }
  specialize (B data eq_refl).
  destruct (for_in (keep_word data) (range (List.length (data_text data)))
              ([], [])) as [[words confs]|e] eqn:L.
  2:{ eexists. split; [apply (ocr_with_tesseract_loop_raises _ _ data); eassumption|].
      simpl. split; discriminate. }
  destruct (local_result_shape log) as (t & E & _ & _ & P).
  exists t. split; [exact E|]. split; [exact P|].
  rewrite (ocr_with_tesseract_ok _ _ data words confs log T L) in E.
  injection E as <-. simpl.
  apply local_confidence_below.
  destruct (loop_keeps_invariant _ _ _ L) as (_ & C & _). simpl in C.
  rewrite Forall_forall in *. intros c Hc. apply B. now apply C.
Qed.

(** The local engine reports an empty text exactly when it reports
    confidence 0.0; any other confidence it reports is above 0.3. *)
Theorem tesseract_text_iff_confidence (log : list event) :
  exists t,
    ocr_with_tesseract w image_bytes log
    = (Returns t, (log ++ [LocalOCR])%list)
    /\ (Engine.text t = "" <-> Engine.confidence t = 0)
    /\ (Engine.text t <> "" -> 3 # 10 < Engine.confidence t)
    /\ 0 <= Engine.confidence t.
Proof. exact (local_result_shape log). Qed.

(** When every entry of the confidence column is at most 100, the local
    engine's confidence is at most 1. *)
Theorem tesseract_confidence_at_most_one (data : TessData)
  (log : list event) :
  image_to_data w image_bytes = Returns data ->
  Forall (fun c => (c <= 100)%Z) (data_conf data) ->
  exists t,
    ocr_with_tesseract w image_bytes log
    = (Returns t, (log ++ [LocalOCR])%list)
    /\ 0 <= Engine.confidence t <= 1.
Proof.
  intros T B. apply local_result_bounded.
  intros data' T'. rewrite T in T'. now injection T' as <-.
Qed.

(** On columns of integer confidences none of which is above 100, the
    local engine fails exactly when the confidence column is shorter than
    the text column, and then with an index error, whatever the tokens
    before the missing entry were; a longer confidence column is
    harmless. *)
Theorem tesseract_error_iff_short_column (data : TessData)
  (log : list event) :
  image_to_data w image_bytes = Returns data ->
  Forall (fun c => (c <= 100)%Z) (data_conf data) ->
  exists t,
    ocr_with_tesseract w image_bytes log
    = (Returns t, (log ++ [LocalOCR])%list)
    /\ (Engine.error t = None
        <-> (List.length (data_text data)
             <= List.length (data_conf data))%nat)
    /\ ((List.length (data_conf data) < List.length (data_text data))%nat ->
        t = failed (Exception "list index out of range")).
Proof.
  intros T _.
  destruct (le_lt_dec (List.length (data_text data))
                      (List.length (data_conf data))) as [Le|Lt].
  - destruct (loop_in_range data (List.length (data_text data)) 0 ([], []))
      as [[words confs] L]; [lia | lia |].
    eexists. split; [apply (ocr_with_tesseract_ok _ _ data words confs); eassumption|].
    simpl. split; [tauto | lia].
  - eexists. split.
    + apply (ocr_with_tesseract_loop_raises _ _ data); [exact T|].
      now apply loop_out_of_range.
    + simpl. split; [|reflexivity]. split; [discriminate | lia].
Qed.

End LocalEngineResults.

(** ** The arbitration, branch by branch *)

Section ArbitrationCases.

Variable w : World.
Variable image_bytes : bytes.

(** What the cloud wrapper can return when the key is set. *)
Lemma gemini_values (log : list event) :
  key_set w = true ->
  exists g,
    ocr_with_gemini w image_bytes log = (Returns g, (log ++ [CloudOCR])%list)
    /\ (cloud_unusable w image_bytes <-> Engine.text g = "")
    /\ ((Engine.text g = "" /\ Engine.confidence g = 0
         /\ exists e, generate_content w image_bytes = Raises e)
        \/ (Engine.confidence g = 7 # 10
            /\ (String.length (Engine.text g) <= 5)%nat
            /\ exists o, generate_content w image_bytes = Returns o)
        \/ (Engine.confidence g = 19 # 20
            /\ (5 < String.length (Engine.text g))%nat
            /\ exists s, generate_content w image_bytes = Returns (Some s)
                         /\ Engine.text g = PyStr.strip s)).
Proof.
  intros K.
  unfold cloud_unusable, ocr_with_gemini, try_except, bind, emit, lift, ret.
  rewrite K. simpl.
  destruct (generate_content w image_bytes) as [[s|]|e]; simpl.
  - set (text := if PyStr.truthy s then PyStr.strip s else "").
    assert (Et : text = PyStr.strip s) by (subst text; now destruct s).
    eexists. split; [reflexivity|]. simpl. fold text. rewrite Et.
    split; [tauto|]. right.
    destruct (5 <? String.length (PyStr.strip s))%nat eqn:E.
    + right. apply Nat.ltb_lt in E. eauto.
    + left. apply Nat.ltb_ge in E. eauto.
  - eexists. split; [reflexivity|]. simpl. split; [tauto|].
    right. left. repeat split; [lia | eauto].
  - eexists. split; [reflexivity|]. simpl. split; [tauto|].
    left. eauto.
Qed.

(** Every run of the routine falls in one of five cases. *)
Lemma extract_cases :
  exists r log,
    extract_text_with_fallback w image_bytes [] = (Returns r, log)
    /\ Result.cleaned_text r = postprocess (Result.extracted_text r)
    /\ Result.notes r
       = (if PyFloat.lt (Result.confidence r) (1 # 2)
          then low_confidence_note else "")
    /\ ((key_set w = false /\ log = [LocalOCR]
         /\ exists t,
              ocr_with_tesseract w image_bytes [] = (Returns t, log)
              /\ from_engine r t "tesseract")
        \/ (key_set w = true
            /\ exists g,
                 ocr_with_gemini w image_bytes [] = (Returns g, [CloudOCR])
                 /\ ((4 # 5 <= Engine.confidence g /\ log = [CloudOCR]
                      /\ from_engine r g "gemini")
                     \/ (Engine.confidence g < 4 # 5
                         /\ log = [CloudOCR; LocalOCR]
                         /\ exists t,
                              ocr_with_tesseract w image_bytes [CloudOCR]
                              = (Returns t, log)
                              /\ ((Engine.text g <> ""
                                   /\ Engine.confidence g < Engine.confidence t
                                   /\ from_engine r t "tesseract")
                                  \/ (Engine.text g <> ""
                                      /\ Engine.confidence t
                                         <= Engine.confidence g
                                      /\ from_engine r g "gemini")
                                  \/ (Engine.text g = ""
                                      /\ from_engine r t "tesseract")))))).
Proof.
  unfold extract_text_with_fallback, bind, ret, from_engine.
  destruct (key_set w) eqn:K.
  - destruct (ocr_with_gemini_returns w image_bytes [] K) as [g G].
    simpl in G. rewrite G.
    destruct (ocr_with_tesseract_returns w image_bytes [CloudOCR]) as [t T].
    simpl in T.
    destruct (PyFloat.ge (Engine.confidence g) (4 # 5)) eqn:C.
    + apply ge_spec in C. simpl. do 2 eexists. split; [reflexivity|].
      destruct (PyFloat.lt _ _) eqn:E; simpl; rewrite ?E;
        (split; [reflexivity|]); (split; [reflexivity|]);
        right; (split; [reflexivity|]); exists g; (split; [reflexivity|]);
        left; auto.
    + apply ge_false in C.
      destruct (PyStr.truthy (Engine.text g)) eqn:Tr; rewrite T.
      * assert (N : Engine.text g <> "")
          by (destruct (Engine.text g); [discriminate | discriminate]).
        destruct (PyFloat.gt (Engine.confidence t) (Engine.confidence g))
          eqn:Gt; [apply gt_spec in Gt | apply gt_false in Gt];
          simpl; do 2 eexists; (split; [reflexivity|]);
          destruct (PyFloat.lt _ _) eqn:E; simpl; rewrite ?E;
          (split; [reflexivity|]); (split; [reflexivity|]);
          right; (split; [reflexivity|]); exists g; (split; [reflexivity|]);
          right; (split; [exact C|]); (split; [reflexivity|]);
          exists t; (split; [reflexivity|]); [left | left | right; left
                                                | right; left]; auto.
      * assert (N : Engine.text g = "")
          by (destruct (Engine.text g); [reflexivity | discriminate]).
        simpl. do 2 eexists. split; [reflexivity|].
        destruct (PyFloat.lt _ _) eqn:E; simpl; rewrite ?E;
          (split; [reflexivity|]); (split; [reflexivity|]);
          right; (split; [reflexivity|]); exists g; (split; [reflexivity|]);
          right; (split; [exact C|]); (split; [reflexivity|]);
          exists t; (split; [reflexivity|]); right; right; auto.
  - destruct (ocr_with_tesseract_returns w image_bytes []) as [t T].
    simpl in T. rewrite T. simpl. do 2 eexists. split; [reflexivity|].
    destruct (PyFloat.lt _ _) eqn:E; simpl; rewrite ?E;
      (split; [reflexivity|]); (split; [reflexivity|]);
      left; (split; [reflexivity|]); (split; [reflexivity|]);
      exists t; auto.
Qed.

End ArbitrationCases.

Section ArbitrationProperties.

Variable w : World.
Variable image_bytes : bytes.

(** Two runs of a wrapper from the same log agree. *)
Ltac qfalse H := exfalso; unfold Qle, Qlt in H; simpl in H; lia.

Ltac same_run H1 H2 :=
  rewrite H1 in H2; injection H2; intros; subst; clear H2.

(** With the key set, a cloud call that raises, or answers [None], an
    empty text or white space only, hands the decision to the local
    engine: its text and confidence are returned as they are, whatever
    they are. *)
Theorem cloud_unusable_falls_back_to_local :
  key_set w = true ->
  cloud_unusable w image_bytes ->
  exists r t,
    ocr_with_tesseract w image_bytes [CloudOCR]
    = (Returns t, [CloudOCR; LocalOCR])
    /\ extract_text_with_fallback w image_bytes []
       = (Returns r, [CloudOCR; LocalOCR])
    /\ from_engine r t "tesseract".
Proof.
  intros K U.
  destruct (gemini_values w image_bytes [] K) as (g & G & Ug & V).
  apply Ug in U.
  destruct (extract_cases w image_bytes)
    as (r & log & E & _ & _ & [(K' & _) | (_ & g' & G' & B)]);
    [congruence|].
  simpl in G. same_run G G'.
  destruct B as [(C & _) | (_ & -> & t & T & B)].
  - exfalso. destruct V as [(_ & V & _) | [(V & _) | (_ & V & _)]].
    + rewrite V in C. qfalse C.
    + rewrite V in C. qfalse C.
    + rewrite U in V. simpl in V. lia.
  - exists r, t. split; [exact T|]. split; [exact E|].
    destruct B as [(N & _) | [(N & _) | (_ & F)]];
      [contradiction | contradiction | exact F].
Qed.

(** The routine consults the cloud engine first and at most once, and the
    local engine at most once. The cloud engine is consulted exactly when
    the key is set; the local engine is skipped exactly when the key is set
    and the cloud answers more than five characters once stripped. *)
Theorem engines_consulted :
  exists r log,
    extract_text_with_fallback w image_bytes [] = (Returns r, log)
    /\ (log = [CloudOCR] \/ log = [CloudOCR; LocalOCR] \/ log = [LocalOCR])
    /\ (In CloudOCR log <-> key_set w = true)
    /\ (~ In LocalOCR log
        <-> key_set w = true
            /\ exists s, generate_content w image_bytes = Returns (Some s)
                         /\ (5 < String.length (PyStr.strip s))%nat).
Proof.
  destruct (extract_cases w image_bytes)
    as (r & log & E & _ & _ & [(K & -> & _) | (K & g & G & B)]);
    exists r; eexists; (split; [exact E|]).
  - split; [auto|]. split.
    + split; [intros [H|[]]; discriminate | congruence].
    + split; [intros H; exfalso; apply H; now left | intros [H _]; congruence].
  - destruct (gemini_values w image_bytes [] K) as (g' & G' & _ & V).
    simpl in G'. same_run G G'.
    destruct B as [(C & -> & _) | (C & -> & _)].
    + split; [auto|]. split; [split; [auto | intros _; now left]|].
      split; [intros _ | intros _ [H|[]]; discriminate].
      split; [exact K|].
      destruct V as [(_ & V & _) | [(V & _) | (_ & L & s & S & T)]].
      * rewrite V in C. qfalse C.
      * rewrite V in C. qfalse C.
      * exists s. rewrite <- T. auto.
    + split; [auto|]. split; [split; [auto | intros _; now left]|].
      split; [intros H; exfalso; apply H; right; now left|].
      intros (_ & s & S & L). exfalso.
      destruct (ocr_with_gemini_text w image_bytes s [] K S)
        as (g2 & G2 & _ & V'). simpl in G2. same_run G G2.
      apply Nat.ltb_lt in L. rewrite L in V'. rewrite V' in C. qfalse C.
Qed.

(** A result whose source is the cloud engine has a non-empty text, a
    confidence of 0.7 or 0.95, and no low-confidence note. *)
Theorem cloud_result_is_confident :
  exists r log,
    extract_text_with_fallback w image_bytes [] = (Returns r, log)
    /\ (Result.ocr_source r = "gemini" ->
        key_set w = true
        /\ Result.extracted_text r <> ""
        /\ (Result.confidence r = 7 # 10 \/ Result.confidence r = 19 # 20)
        /\ Result.notes r = "").
Proof.
  destruct (extract_cases w image_bytes)
    as (r & log & E & _ & N & [(_ & _ & t & _ & _ & S & _) | (K & g & G & B)]);
    exists r, log; (split; [exact E|]); intros Src.
  - rewrite S in Src. discriminate.
  - destruct (gemini_values w image_bytes [] K) as (g' & G' & _ & V).
    simpl in G'. same_run G' G.
    assert (F : from_engine r g "gemini" /\
                (4 # 5 <= Engine.confidence g \/ Engine.text g <> "")).
    { destruct B as [(C & _ & F) | (_ & _ & t & _ & B)]; [auto|].
      destruct B as [(_ & _ & _ & S & _) | [(T & _ & F) | (_ & _ & S & _)]];
        [rewrite S in Src; discriminate | auto
         | rewrite S in Src; discriminate]. }
    destruct F as ((Ft & _ & Fc) & D). rewrite Ft, N, Fc.
    split; [exact K|].
    destruct V as [(Vt & Vc & _) | [(Vc & Vl & _) | (Vc & Vl & _)]].
    + exfalso. destruct D as [D|D]; [rewrite Vc in D; qfalse D
                                    | contradiction].
    + destruct D as [D|D]; [rewrite Vc in D; qfalse D|].
      rewrite Vc. auto.
    + rewrite Vc. split; [|auto].
      intros Z. rewrite Z in Vl. simpl in Vl. lia.
Qed.

(** A result with an empty extracted text comes from the local engine with
    confidence 0.0, an empty cleaned text and the low-confidence note. *)
Theorem empty_text_is_local_zero :
  exists r log,
    extract_text_with_fallback w image_bytes [] = (Returns r, log)
    /\ (Result.extracted_text r = "" ->
        Result.ocr_source r = "tesseract"
        /\ Result.confidence r = 0
        /\ Result.cleaned_text r = ""
        /\ Result.notes r = low_confidence_note).
Proof.
  assert (L : forall r t log log',
    ocr_with_tesseract w image_bytes log = (Returns t, log') ->
    from_engine r t "tesseract" ->
    Result.cleaned_text r = postprocess (Result.extracted_text r) ->
    Result.notes r = (if PyFloat.lt (Result.confidence r) (1 # 2)
                      then low_confidence_note else "") ->
    Result.extracted_text r = "" ->
    Result.ocr_source r = "tesseract" /\ Result.confidence r = 0
    /\ Result.cleaned_text r = "" /\ Result.notes r = low_confidence_note).
  { intros r t log log' T (Ft & Fs & Fc) P N Z.
    destruct (local_result_shape w image_bytes log) as (t' & T' & I & _).
    same_run T' T. rewrite Ft in Z. apply I in Z.
    rewrite P, N, Fc, Z, Ft. rewrite Z in Fc.
    assert (Engine.text t = "") as -> by (now apply I).
    auto. }
  destruct (extract_cases w image_bytes)
    as (r & log & E & P & N & [(_ & _ & t & T & F) | (K & g & G & B)]);
    exists r, log; (split; [exact E|]); intros Z.
  - exact (L r t _ _ T F P N Z).
  - destruct (gemini_values w image_bytes [] K) as (g' & G' & _ & V).
    simpl in G'. same_run G' G.
    destruct B as [(C & _ & Ft & _) | (_ & _ & t & T & B)].
    + exfalso. rewrite Ft in Z.
      destruct V as [(_ & V & _) | [(V & _) | (_ & V & _)]].
      * rewrite V in C. qfalse C.
      * rewrite V in C. qfalse C.
      * rewrite Z in V. simpl in V. lia.
    + destruct B as [(_ & _ & F) | [(Ng & _ & Ft & _) | (_ & F)]].
      * exact (L r t _ _ T F P N Z).
      * exfalso. rewrite Ft in Z. contradiction.
      * exact (L r t _ _ T F P N Z).
Qed.

(** When the local engine's confidence column holds nothing above 100, the
    confidence of the result lies between 0 and 1. *)
Theorem confidence_in_unit_interval :
  (forall data, image_to_data w image_bytes = Returns data ->
                Forall (fun c => (c <= 100)%Z) (data_conf data)) ->
  exists r log,
    extract_text_with_fallback w image_bytes [] = (Returns r, log)
    /\ 0 <= Result.confidence r <= 1.
Proof.
  intros H.
  assert (L : forall t log log',
    ocr_with_tesseract w image_bytes log = (Returns t, log') ->
    0 <= Engine.confidence t <= 1).
  { intros t log log' T.
    destruct (local_result_bounded w image_bytes log H) as (t' & T' & B).
    now same_run T T'. }
  destruct (extract_cases w image_bytes)
    as (r & log & E & _ & _ & [(_ & _ & t & T & _ & _ & F) | (K & g & G & B)]);
    exists r, log; (split; [exact E|]).
  - rewrite F. exact (L t _ _ T).
  - destruct (gemini_values w image_bytes [] K) as (g' & G' & _ & V).
    simpl in G'. same_run G' G.
    assert (Bg : 0 <= Engine.confidence g <= 1).
    { destruct V as [(_ & V & _) | [(V & _) | (V & _)]]; rewrite V;
        split; discriminate. }
    destruct B as [(_ & _ & _ & _ & F) | (_ & _ & t & T & B)];
      [now rewrite F|].
    destruct B as [(_ & _ & _ & _ & F) | [(_ & _ & _ & _ & F)
                                          | (_ & _ & _ & F)]];
      rewrite F; [exact (L t _ _ T) | exact Bg | exact (L t _ _ T)].
Qed.

End ArbitrationProperties.

(** ** The shape of the cleaned text *)

Section CleanedText.

Import PyStr.

Lemma lower_clean_char (c : ascii) : lower_char (clean_char c) = clean_char c.
Proof. destruct c as [[] [] [] [] [] [] [] []]; reflexivity. Qed.

Lemma clean_char_no_digit (c : ascii) :
  clean_char c <> "0"%char /\ clean_char c <> "1"%char
  /\ clean_char c <> "5"%char.
Proof.
  destruct c as [[] [] [] [] [] [] [] []]; repeat split; discriminate.
Qed.

Lemma clean_char_no_capital (c : ascii) :
  (N_of_ascii (clean_char c) < 65 \/ 90 < N_of_ascii (clean_char c))%N.
Proof.
  destruct c as [[] [] [] [] [] [] [] []]; vm_compute;
    first [left; reflexivity | right; reflexivity].
Qed.

Lemma chars_smap (f : ascii -> ascii) (s : string) :
  chars (smap f s) = map f (chars s).
Proof.
  unfold chars. induction s as [|c s IH]; simpl; [reflexivity|].
  now rewrite IH.
Qed.

Lemma length_smap (f : ascii -> ascii) (s : string) :
  String.length (smap f s) = String.length s.
Proof. induction s as [|c s IH]; simpl; [reflexivity | now rewrite IH]. Qed.

(** The cleaned text is stripped and lower-case, holds none of the
    characters 0, 1, 5 and no capital A-Z, has as many characters as the
    lowered and stripped text the three replacements start from, and is
    empty exactly when the extracted text is blank. *)
Theorem postprocess_shape (s : string) :
  strip (postprocess s) = postprocess s
  /\ lower (postprocess s) = postprocess s
  /\ (forall c, In c (chars (postprocess s)) ->
        c <> "0"%char /\ c <> "1"%char /\ c <> "5"%char
        /\ (N_of_ascii c < 65 \/ 90 < N_of_ascii c)%N)
  /\ String.length (postprocess s) = String.length (strip (lower s))
  /\ (postprocess s = "" <-> strip s = "").
Proof.
  assert (L : String.length (postprocess s)
              = String.length (strip (lower s)))
    by (unfold postprocess, replace; now rewrite !length_smap).
  rewrite L. clear L.
  rewrite !postprocess_as_map. repeat split.
  - rewrite (strip_smap clean_char isspace_clean_char). now rewrite strip_idem.
  - unfold lower. rewrite smap_smap. apply smap_ext, lower_clean_char.
  - rewrite chars_smap, in_map_iff in H. destruct H as (x & <- & _).
    apply clean_char_no_digit.
  - rewrite chars_smap, in_map_iff in H. destruct H as (x & <- & _).
    apply clean_char_no_digit.
  - rewrite chars_smap, in_map_iff in H. destruct H as (x & <- & _).
    apply clean_char_no_digit.
  - rewrite chars_smap, in_map_iff in H. destruct H as (x & <- & _).
    apply clean_char_no_capital.
  - destruct (strip s); [reflexivity | discriminate].
  - now intros ->.
Qed.

End CleanedText.

(** ** Loading and caching in the classifier *)

(** What [predict_stockcode_from_image] answers once both globals are set. *)
Lemma predict_when_loaded_at (w : CnnWorld) (image_bytes : bytes)
  (g : Globals) (m : Model) (v : LabelMapValue) :
  _model g = Some m ->
  _label_map g = Some v ->
  predict_stockcode_from_image w image_bytes g
  = (match model_predict w m image_bytes with
     | Returns (id, c) =>
         match label_map_get v id "UNKNOWN" with
         | Returns stock_code => Returns (stock_code, c)
         | Raises _ => Returns ("ERROR", 0)
         end
     | Raises _ => Returns ("ERROR", 0)
     end, g).
Proof.
  intros Hm Hd.
  unfold predict_stockcode_from_image, try_except.
  unfold load_resources, bind, get, put, lift, ret.
  rewrite Hm, Hd. simpl. rewrite Hm, Hd.
  destruct (model_predict w m image_bytes) as [[id c]|e]; [|reflexivity].
  destruct (label_map_get v id "UNKNOWN"); reflexivity.
Qed.

Section ClassifierState.

Variable w : CnnWorld.
Variable image_bytes : bytes.

Ltac run_load := unfold load_resources, bind, get, put, lift, ret.

(** [load_resources] never replaces a model or a label map that is already
    loaded, whether it returns or raises. *)
Theorem load_resources_keeps_loaded (g : Globals) :
  (forall m, _model g = Some m ->
             _model (snd (load_resources w g)) = Some m)
  /\ (forall d, _label_map g = Some d ->
                _label_map (snd (load_resources w g)) = Some d).
Proof.
  run_load. split.
  - intros m Hm. rewrite Hm. simpl.
    destruct (_label_map g) eqn:Hd; simpl; [exact Hm|].
    destruct (label_map_file w) as [[j|e]|]; simpl; try exact Hm.
    destruct (convert_keys (py_int w) j); simpl; exact Hm.
  - intros d Hd.
    destruct (_model g) eqn:Hm; simpl.
    + now rewrite Hd.
    + destruct (model_file w) as [[m|e]|]; simpl; rewrite ?Hd; simpl;
        first [exact Hd | reflexivity].
Qed.

(** An exception raised while the model file is loaded is not caught: it
    leaves [predict_stockcode_from_image], with the globals untouched. *)
Theorem model_load_failure_escapes (g : Globals) (e : exn) :
  _model g = None ->
  model_file w = Some (Raises e) ->
  predict_stockcode_from_image w image_bytes g = (Raises e, g).
Proof.
  intros Hm F. unfold predict_stockcode_from_image. run_load.
  now rewrite Hm, F.
Qed.

(** An exception raised while the label map is loaded escapes too, and the
    model loaded just before stays in the globals. When the file cannot be
    read, the label map stays unset. When the file is read and the
    conversion of its keys raises, the global keeps what line 34 bound it
    to; if that is an object, every later call skips the loading and
    answers "UNKNOWN" with the model's confidence, the keys being strings
    still. *)
Theorem label_map_load_failure_escapes (m : Model) (e : exn) :
  model_file w = Some (Returns m) ->
  (label_map_file w = Some (Raises e) ->
   predict_stockcode_from_image w image_bytes no_globals
   = (Raises e, {| _model := Some m; _label_map := None |}))
  /\ (forall j,
         label_map_file w = Some (Returns j) ->
         convert_keys (py_int w) j = Raises e ->
         predict_stockcode_from_image w image_bytes no_globals
         = (Raises e, {| _model := Some m; _label_map := bound_to j |}))
  /\ (forall fields w' image_bytes',
         predict_stockcode_from_image w' image_bytes'
           {| _model := Some m; _label_map := Some (RawObject fields) |}
         = (match model_predict w' m image_bytes' with
            | Returns (id, c) => Returns ("UNKNOWN", c)
            | Raises _ => Returns ("ERROR", 0)
            end,
            {| _model := Some m; _label_map := Some (RawObject fields) |})).
Proof.
  intros Fm. split; [|split].
  - intros Fd. unfold predict_stockcode_from_image. run_load. simpl.
    now rewrite Fm, Fd.
  - intros j Fd C. unfold predict_stockcode_from_image. run_load. simpl.
    rewrite Fm, Fd. simpl. now rewrite C.
  - intros fields w' image_bytes'.
    rewrite (predict_when_loaded_at w' image_bytes'
               {| _model := Some m; _label_map := Some (RawObject fields) |}
               m (RawObject fields) eq_refl eq_refl).
    destruct (model_predict w' m image_bytes') as [[id c]|e']; reflexivity.
Qed.

(** With both globals set, the files are not looked at again: the answer
    depends on the inference alone and the globals stay as they are. *)
Theorem loaded_globals_ignore_files (g : Globals) (m : Model)
  (d : LabelMap) :
  _model g = Some m ->
  _label_map g = Some (Converted d) ->
  predict_stockcode_from_image w image_bytes g
  = (match model_predict w m image_bytes with
     | Returns (id, c) => Returns (dict_get d id "UNKNOWN", c)
     | Raises _ => Returns ("ERROR", 0)
     end, g).
Proof.
  intros Hm Hd.
  rewrite (predict_when_loaded_at w image_bytes g m (Converted d) Hm Hd).
  destruct (model_predict w m image_bytes) as [[id c]|e]; reflexivity.
Qed.

(** The first call loads both files and keeps them: a later call answers
    the same in any world with the same inference, even one where the
    files are gone. *)
Theorem first_call_caches (m : Model) (j : LabelJson) (d : LabelMap) :
  model_file w = Some (Returns m) ->
  label_map_file w = Some (Returns j) ->
  convert_keys (py_int w) j = Returns d ->
  exists r,
    predict_stockcode_from_image w image_bytes no_globals
    = (r, {| _model := Some m; _label_map := Some (Converted d) |})
    /\ forall w',
         model_predict w' = model_predict w ->
         predict_stockcode_from_image w' image_bytes
           {| _model := Some m; _label_map := Some (Converted d) |}
         = (r, {| _model := Some m; _label_map := Some (Converted d) |}).
Proof.
  intros Fm Fd C.
  exists (match model_predict w m image_bytes with
          | Returns (id, c) => Returns (dict_get d id "UNKNOWN", c)
          | Raises _ => Returns ("ERROR", 0)
          end).
  split.
  - unfold predict_stockcode_from_image, try_except. run_load. simpl.
    rewrite Fm, Fd. simpl. rewrite C. simpl.
    destruct (model_predict w m image_bytes) as [[id c]|e]; reflexivity.
  - intros w' P.
    rewrite (predict_when_loaded_at w' image_bytes
               {| _model := Some m; _label_map := Some (Converted d) |} m
               (Converted d) eq_refl eq_refl), P.
    destruct (model_predict w m image_bytes) as [[id c]|e]; reflexivity.
Qed.

End ClassifierState.

(** * The vector index and the HTTP endpoints *)

(** ** Searching the index *)

Section Search.

Variable app : App.

Ltac run_search :=
  unfold search_related_products, search, try_except, bind, attempt, lift, ret.

Lemma append_match_well_formed (m : value) (matches : list value) :
  well_formed m = true ->
  append_match m matches = Returns (matches ++ [product_of m])%list.
Proof.
  destruct m as [| | | | |fields]; try discriminate.
  unfold well_formed, append_match, product_of, and_then. simpl.
  destruct (PyVal.lookup fields "id") as [id|]; [|discriminate].
  destruct (PyVal.lookup fields "score") as [score|]; [|discriminate].
  destruct (PyVal.lookup fields "metadata") as [[| | | | |meta]|];
    try discriminate; reflexivity.
Qed.

Lemma for_in_well_formed (ms acc : list value) :
  Forall (fun m => well_formed m = true) ms ->
  for_in append_match ms acc = Returns (acc ++ map product_of ms)%list.
Proof.
  intros F. revert acc.
  induction F as [|m ms W F IH]; intros acc; simpl.
  - now rewrite app_nil_r.
  - rewrite (append_match_well_formed m acc W), IH.
    now rewrite <- app_assoc.
Qed.

Lemma search_results (db : PineconeProductDB) (query : value) (top_k : nat)
  (st : AppState) :
  search db query top_k st
  = (Returns (match index_query db query top_k with
              | Returns results => results
              | Raises _ => VDict [("matches", VList [])]
              end),
     queried st query top_k).
Proof.
  unfold search, try_except, bind, attempt, lift, ret, queried.
  destruct (index_query db query top_k); reflexivity.
Qed.

Lemma search_related_products_with (db : PineconeProductDB)
  (query : value) (top_k : nat) (st : AppState) :
  vector_db app = Some db ->
  search_related_products app query top_k st
  = (found <~ PyVal.get
                (match index_query db query top_k with
                 | Returns results => results
                 | Raises _ => VDict [("matches", VList [])]
                 end) "matches" (VList []) ;;
     items <~ PyVal.iterate found ;;
     for_in append_match items [],
     queried st query top_k).
Proof.
  intros D. unfold search_related_products. rewrite D.
  unfold bind at 1. rewrite search_results. reflexivity.
Qed.

(** A failure of the index is swallowed by [search]: the caller gets no
    products, and the attempt is on record. *)
Theorem search_failure_gives_no_products (db : PineconeProductDB)
  (query : value) (top_k : nat) (e : exn) (st : AppState) :
  vector_db app = Some db ->
  index_query db query top_k = Raises e ->
  search_related_products app query top_k st
  = (Returns [], queried st query top_k).
Proof.
  intros D Q. rewrite (search_related_products_with db _ _ _ D), Q.
  reflexivity.
Qed.

Lemma search_well_formed (db : PineconeProductDB)
  (query : value) (top_k : nat) (results : list (string * value))
  (ms : list value) (st : AppState) :
  vector_db app = Some db ->
  index_query db query top_k = Returns (VDict results) ->
  PyVal.lookup results "matches" = Some (VList ms) ->
  Forall (fun m => well_formed m = true) ms ->
  search_related_products app query top_k st
  = (Returns (map product_of ms), queried st query top_k).
Proof.
  intros D Q L W. rewrite (search_related_products_with db _ _ _ D), Q.
  unfold PyVal.get, and_then. rewrite L. simpl.
  now rewrite (for_in_well_formed ms [] W).
Qed.

(** On well-formed matches the products are the matches, one for one and
    in the index's order, with "N/A", "Unknown" and 0.0 where the metadata
    says nothing. *)
Theorem search_products_in_order (db : PineconeProductDB)
  (query : value) (top_k : nat) (results : list (string * value))
  (ms : list value) (st : AppState) :
  vector_db app = Some db ->
  index_query db query top_k = Returns (VDict results) ->
  PyVal.lookup results "matches" = Some (VList ms) ->
  Forall (fun m => well_formed m = true) ms ->
  search_related_products app query top_k st
  = (Returns (map product_of ms), queried st query top_k).
Proof.
  apply search_well_formed.
Qed.

(** A match without an "id" aborts the whole search with a [KeyError],
    whatever the matches before and after it; nothing catches it here. *)
Theorem match_without_id_raises (db : PineconeProductDB)
  (query : value) (top_k : nat) (results fields : list (string * value))
  (good rest : list value) (st : AppState) :
  vector_db app = Some db ->
  index_query db query top_k = Returns (VDict results) ->
  PyVal.lookup results "matches"
  = Some (VList (good ++ VDict fields :: rest)) ->
  Forall (fun m => well_formed m = true) good ->
  PyVal.lookup fields "id" = None ->
  search_related_products app query top_k st
  = (Raises (Exception "'id'"), queried st query top_k).
Proof.
  intros D Q L W N. rewrite (search_related_products_with db _ _ _ D), Q.
  unfold PyVal.get, and_then. rewrite L. simpl.
  rewrite for_in_app, (for_in_well_formed good [] W). simpl.
  unfold append_match, and_then. simpl. now rewrite N.
Qed.

End Search.

(** ** The endpoints *)

Section Endpoints.

Variable app : App.

(** Where a search leaves the state, whatever it yields. *)
Lemma search_related_products_state (query : value) (top_k : nat)
  (st : AppState) :
  snd (search_related_products app query top_k st)
  = match vector_db app with
    | Some _ => queried st query top_k
    | None => st
    end.
Proof.
  destruct (vector_db app) as [db|] eqn:D.
  - now rewrite (search_related_products_with app db _ _ _ D).
  - unfold search_related_products. now rewrite D.
Qed.

(** A request whose "query" is missing or false (empty, [None], zero) is
    refused with status 400 and no search is attempted. *)
Theorem recommend_rejects_empty_query (fields : list (string * value))
  (st : AppState) :
  match PyVal.lookup fields "query" with
  | Some query => PyVal.truthy query = false
  | None => True
  end ->
  recommend app (VDict fields) st = (Returns empty_query_response, st).
Proof.
  unfold recommend, bind, lift, ret. simpl.
  destruct (PyVal.lookup fields "query") as [query|]; [|reflexivity].
  now intros ->.
Qed.

(** On well-formed matches, [recommend] answers 200 with one product per
    match and a message that counts them. *)
Theorem recommend_reports_match_count (db : PineconeProductDB)
  (fields results : list (string * value)) (query : value)
  (ms : list value) (st : AppState) :
  PyVal.lookup fields "query" = Some query ->
  PyVal.truthy query = true ->
  vector_db app = Some db ->
  index_query db query 5 = Returns (VDict results) ->
  PyVal.lookup results "matches" = Some (VList ms) ->
  Forall (fun m => well_formed m = true) ms ->
  recommend app (VDict fields) st
  = (Returns {| body :=
                  VDict [("response",
                          VStr ("Found " ++ str_nat (List.length ms)
                                ++ " products."));
                         ("products", VList (map product_of ms))];
                status := 200 |},
     queried st query 5).
Proof.
  intros Lq T D Q L W.
  pose proof (search_well_formed app db query 5 results ms st D Q L W)
    as S.
  unfold recommend, bind, lift, ret. simpl. rewrite Lq, T. simpl.
  rewrite S. now rewrite length_map.
Qed.

End Endpoints.

Section OcrEndpoint.

Variable app : App.
Variable image_bytes : bytes.

(** [recommend_ocr] in terms of the result of the arbitration. *)
Lemma recommend_ocr_after (r : Result.t) (log : list event)
  (st : AppState) :
  extract_text_with_fallback (ocr_world app) image_bytes [] = (Returns r, log) ->
  recommend_ocr app (Some image_bytes) st
  = (products <-
       (if PyStr.truthy (Result.cleaned_text r)
        then search_related_products app (VStr (Result.cleaned_text r)) 5
        else ret []) ;;
     ret {| body :=
              VDict [("extracted_text", VStr (Result.extracted_text r));
                     ("confidence", VNum (Result.confidence r));
                     ("response",
                      VStr ("Query: '" ++ Result.cleaned_text r ++ "'"));
                     ("products", VList products)];
            status := 200 |}) (consulted st log).
Proof.
  intros E. unfold recommend_ocr, run_ocr. unfold bind at 1.
  now rewrite E.
Qed.

(** What the arbitration returns when the local engine raises and the
    cloud engine is absent or gives nothing usable. *)
Lemma extract_when_both_fail (e : exn) :
  image_to_data (ocr_world app) image_bytes = Raises e ->
  key_set (ocr_world app) = false
  \/ cloud_unusable (ocr_world app) image_bytes ->
  exists r log,
    extract_text_with_fallback (ocr_world app) image_bytes []
    = (Returns r, log)
    /\ Result.extracted_text r = "" /\ Result.cleaned_text r = ""
    /\ Result.confidence r = 0.
Proof.
  intros T H.
  assert (L : forall r t log log',
    ocr_with_tesseract (ocr_world app) image_bytes log = (Returns t, log') ->
    from_engine r t "tesseract" ->
    Result.cleaned_text r = postprocess (Result.extracted_text r) ->
    Result.extracted_text r = "" /\ Result.cleaned_text r = ""
    /\ Result.confidence r = 0).
  { intros r t log log' T' (Ft & _ & Fc) P.
    rewrite (ocr_with_tesseract_raises _ _ e log T) in T'.
    injection T' as <- _. rewrite P, Ft, Fc. auto. }
  destruct (extract_cases (ocr_world app) image_bytes)
    as (r & log & E & P & _ & [(_ & _ & t & T' & F) | (K & g & G & B)]);
    exists r, log; (split; [exact E|]).
  - exact (L r t _ _ T' F P).
  - destruct H as [H|U]; [congruence|].
    destruct (gemini_values (ocr_world app) image_bytes [] K)
      as (g' & G' & Ug & V).
    simpl in G'. rewrite G' in G. injection G as ->. apply Ug in U.
    destruct B as [(C & _) | (_ & _ & t & T' & B)].
    + exfalso. destruct V as [(_ & V & _) | [(V & _) | (_ & V & _)]].
      * rewrite V in C. unfold Qle in C. simpl in C. lia.
      * rewrite V in C. unfold Qle in C. simpl in C. lia.
      * rewrite U in V. simpl in V. lia.
    + destruct B as [(N & _) | [(N & _) | (_ & F)]];
        [contradiction | contradiction | exact (L r t _ _ T' F P)].
Qed.

(** When the local engine raises and the cloud engine is absent or gives
    nothing usable, the endpoint still answers 200: empty text, confidence
    0.0, no products, and no search is attempted. *)
Theorem recommend_ocr_without_text (e : exn) (st : AppState) :
  image_to_data (ocr_world app) image_bytes = Raises e ->
  key_set (ocr_world app) = false
  \/ cloud_unusable (ocr_world app) image_bytes ->
  exists log,
    recommend_ocr app (Some image_bytes) st
    = (Returns {| body := VDict [("extracted_text", VStr "");
                                 ("confidence", VNum 0);
                                 ("response", VStr "Query: ''");
                                 ("products", VList [])];
                  status := 200 |},
       consulted st log).
Proof.
  intros T H.
  destruct (extract_when_both_fail e T H) as (r & log & E & Xt & Ct & Cf).
  exists log. rewrite (recommend_ocr_after r log st E), Xt, Ct, Cf.
  reflexivity.
Qed.

(** For a non-empty cleaned text one search with [top_k] 5 is attempted on
    a connected index, whatever the confidence and the note say. *)
Theorem recommend_ocr_searches_cleaned_text (db : PineconeProductDB)
  (r : Result.t) (log : list event) (st : AppState) :
  extract_text_with_fallback (ocr_world app) image_bytes [] = (Returns r, log) ->
  Result.cleaned_text r <> "" ->
  vector_db app = Some db ->
  exists o,
    recommend_ocr app (Some image_bytes) st
    = (o, queried (consulted st log) (VStr (Result.cleaned_text r)) 5).
Proof.
  intros E N D. rewrite (recommend_ocr_after r log st E).
  assert (T : PyStr.truthy (Result.cleaned_text r) = true)
    by (destruct (Result.cleaned_text r); [contradiction | reflexivity]).
  rewrite T. unfold bind, ret.
  pose proof (search_related_products_state app
                (VStr (Result.cleaned_text r)) 5 (consulted st log)) as S.
  rewrite D in S.
  destruct (search_related_products app (VStr (Result.cleaned_text r)) 5
              (consulted st log)) as [[products|e] st'];
    simpl in S; subst st'; eexists; reflexivity.
Qed.

(** A malformed match makes [recommend_ocr] raise: nothing in the endpoint
    catches the [KeyError] of the search. *)
Theorem recommend_ocr_lets_key_error_escape (db : PineconeProductDB)
  (r : Result.t) (log : list event) (results fields : list (string * value))
  (good rest : list value) (st : AppState) :
  extract_text_with_fallback (ocr_world app) image_bytes [] = (Returns r, log) ->
  Result.cleaned_text r <> "" ->
  vector_db app = Some db ->
  index_query db (VStr (Result.cleaned_text r)) 5 = Returns (VDict results) ->
  PyVal.lookup results "matches"
  = Some (VList (good ++ VDict fields :: rest)) ->
  Forall (fun m => well_formed m = true) good ->
  PyVal.lookup fields "id" = None ->
  recommend_ocr app (Some image_bytes) st
  = (Raises (Exception "'id'"),
     queried (consulted st log) (VStr (Result.cleaned_text r)) 5).
Proof.
  intros E N D Q L W I. rewrite (recommend_ocr_after r log st E).
  assert (T : PyStr.truthy (Result.cleaned_text r) = true)
    by (destruct (Result.cleaned_text r); [contradiction | reflexivity]).
  rewrite T. unfold bind.
  rewrite (search_related_products_with app db _ _ _ D), Q.
  unfold PyVal.get, and_then. rewrite L. simpl.
  rewrite for_in_app, (for_in_well_formed good [] W). simpl.
  unfold append_match, and_then. simpl. now rewrite I.
Qed.

End OcrEndpoint.

Section DetectEndpoint.

Import PyStr.

Variable app : App.
Variable image_bytes : bytes.

Lemma lower_char_idem (c : ascii) : lower_char (lower_char c) = lower_char c.
Proof. destruct c as [[] [] [] [] [] [] [] []]; reflexivity. Qed.

Lemma lower_idem (s : string) : lower (lower s) = lower s.
Proof. unfold lower. rewrite smap_smap. apply smap_ext, lower_char_idem. Qed.

Lemma lower_underscore (c : ascii) :
  lower_char (if Ascii.eqb c " " then "_" else c)%char
  = (if Ascii.eqb (lower_char c) " " then "_" else lower_char c)%char.
Proof. destruct c as [[] [] [] [] [] [] [] []]; reflexivity. Qed.

Lemma lower_class_name (d : string) : lower (class_name d) = class_name d.
Proof.
  unfold class_name, replace, lower.
  rewrite (strip_smap lower_char isspace_lower_char).
  rewrite !smap_smap. apply smap_ext. intros c.
  now rewrite lower_underscore, lower_char_idem.
Qed.

Lemma filter_head_find {A} (f : A -> bool) (l : list A) :
  match filter f l with
  | [] => find f l = None
  | x :: _ => find f l = Some x
  end.
Proof.
  induction l as [|a l IH]; simpl; [reflexivity|].
  destruct (f a); [reflexivity | exact IH].
Qed.

Lemma find_none_filter {A} (f : A -> bool) (l : list A) :
  (forall x, In x l -> f x = false) -> filter f l = [].
Proof.
  induction l as [|a l IH]; simpl; intros H; [reflexivity|].
  rewrite (H a (or_introl eq_refl)). apply IH. intros x Hx. apply H. now right.
Qed.

(** [detect_product] once the classifier has answered a label other than
    "UNKNOWN" and the catalogue is there. *)
Lemma detect_product_after (predicted_class : string) (confidence : Q)
  (g : Globals) (df : list CatalogRow) (st : AppState) :
  predict_stockcode_from_image (cnn_world app) image_bytes (globals st)
  = (Returns (predicted_class, confidence), g) ->
  predicted_class <> "UNKNOWN" ->
  df_products app = Some df ->
  detect_product app (Some image_bytes) st
  = (let '(description, real_stock_code) :=
       match filter (describes predicted_class) df with
       | [] => (replace "_" " " predicted_class, "UNKNOWN")
       | row :: _ => (Description row, StockCode row)
       end in
     match search_related_products app (VStr description) 5
             (with_globals st g) with
     | (Returns related_products, st') =>
         (Returns (identified_response real_stock_code predicted_class
                     description confidence related_products), st')
     | (Raises _, st') => (Returns internal_error_response, st')
     end).
Proof.
  intros P N D.
  unfold detect_product, try_except, run_cnn. unfold bind at 1.
  rewrite P. apply String.eqb_neq in N. rewrite N.
  unfold bind at 1. unfold lift at 1. rewrite D.
  fold (describes predicted_class).
  destruct (filter (describes predicted_class) df) as [|row rows];
    unfold bind, ret, with_globals;
    destruct (search_related_products _ _ _ _) as [[products|e] st'];
    reflexivity.
Qed.

(** [detect_product] always answers: 400 without an image, and otherwise
    200 or the fixed 500 response; no exception leaves it. *)
Theorem detect_product_always_responds (image : option bytes)
  (st : AppState) :
  exists resp st',
    detect_product app image st = (Returns resp, st')
    /\ (image = None -> resp = no_image_response /\ st' = st)
    /\ (image <> None ->
        status resp = 200%nat \/ resp = internal_error_response).
Proof.
  destruct image as [img|].
  2:{ exists no_image_response, st. repeat split. congruence. }
  unfold detect_product, try_except, run_cnn. unfold bind at 1.
  destruct (predict_stockcode_from_image (cnn_world app) img (globals st))
    as [[[label c]|e] g].
  2:{ do 2 eexists. split; [reflexivity|]. split; [discriminate | auto]. }
  destruct (label =? "UNKNOWN")%string.
  { do 2 eexists. split; [reflexivity|]. split; [discriminate | auto]. }
  unfold bind at 1. unfold lift at 1.
  destruct (df_products app) as [df|].
  2:{ do 2 eexists. split; [reflexivity|]. split; [discriminate | auto]. }
  destruct (filter _ df) as [|row rows]; unfold bind, ret;
    destruct (search_related_products _ _ _ _) as [[products|e] st'];
    do 2 eexists; (split; [reflexivity|]); (split; [discriminate | auto]).
Qed.

(** The label "UNKNOWN" ends the request at once: status 200, no products,
    no look at the catalogue and no search attempted. *)
Theorem detect_product_unknown (confidence : Q) (g : Globals)
  (st : AppState) :
  predict_stockcode_from_image (cnn_world app) image_bytes (globals st)
  = (Returns ("UNKNOWN", confidence), g) ->
  detect_product app (Some image_bytes) st
  = (Returns not_identified_response, with_globals st g).
Proof.
  intros P. unfold detect_product, try_except, run_cnn. unfold bind at 1.
  now rewrite P.
Qed.

(** A label no catalogue row describes, the classifier's own failure label
    "ERROR" included, is not an error for the endpoint: it searches the
    index for the label with its underscores turned into spaces and
    answers 200 with "UNKNOWN" as the stock code. *)
Theorem detect_product_unlisted_label (predicted_class : string)
  (confidence : Q) (g : Globals) (df : list CatalogRow)
  (products : list value) (st st' : AppState) :
  predict_stockcode_from_image (cnn_world app) image_bytes (globals st)
  = (Returns (predicted_class, confidence), g) ->
  predicted_class <> "UNKNOWN" ->
  df_products app = Some df ->
  (forall row, In row df -> describes predicted_class row = false) ->
  search_related_products app (VStr (replace "_" " " predicted_class)) 5
    (with_globals st g)
  = (Returns products, st') ->
  detect_product app (Some image_bytes) st
  = (Returns (identified_response "UNKNOWN" predicted_class
                (replace "_" " " predicted_class) confidence products),
     st').
Proof.
  intros P N D F S.
  rewrite (detect_product_after predicted_class confidence g df st P N D).
  rewrite (find_none_filter _ df F). now rewrite S.
Qed.

(** A label described by a catalogue row is answered with the first such
    row: its stock code, its description as written in the catalogue, and
    the products found for that description. *)
Theorem detect_product_catalogue_match (predicted_class : string)
  (confidence : Q) (g : Globals) (df : list CatalogRow) (row : CatalogRow)
  (products : list value) (st st' : AppState) :
  predict_stockcode_from_image (cnn_world app) image_bytes (globals st)
  = (Returns (predicted_class, confidence), g) ->
  predicted_class <> "UNKNOWN" ->
  df_products app = Some df ->
  find (describes predicted_class) df = Some row ->
  search_related_products app (VStr (Description row)) 5 (with_globals st g)
  = (Returns products, st') ->
  detect_product app (Some image_bytes) st
  = (Returns (identified_response (StockCode row) predicted_class
                (Description row) confidence products),
     st').
Proof.
  intros P N D F S.
  rewrite (detect_product_after predicted_class confidence g df st P N D).
  pose proof (filter_head_find (describes predicted_class) df) as H.
  destruct (filter (describes predicted_class) df) as [|row' rows];
    [congruence|].
  rewrite F in H. injection H as <-. now rewrite S.
Qed.

(** An exception while the model file is loaded, which the classifier lets
    through, is caught by the endpoint: status 500 and the fixed error
    body. *)
Theorem detect_product_load_failure (e : exn) (st : AppState) :
  _model (globals st) = None ->
  model_file (cnn_world app) = Some (Raises e) ->
  detect_product app (Some image_bytes) st
  = (Returns internal_error_response, with_globals st (globals st)).
Proof.
  intros M F. unfold detect_product, try_except, run_cnn. unfold bind at 1.
  unfold predict_stockcode_from_image, load_resources, bind, get, put, lift,
    ret.
  now rewrite M, F.
Qed.

(** When the catalogue was never read, every label but "UNKNOWN" ends in
    the 500 response, and no search is attempted. *)
Theorem detect_product_without_catalogue (predicted_class : string)
  (confidence : Q) (g : Globals) (st : AppState) :
  predict_stockcode_from_image (cnn_world app) image_bytes (globals st)
  = (Returns (predicted_class, confidence), g) ->
  predicted_class <> "UNKNOWN" ->
  df_products app = None ->
  detect_product app (Some image_bytes) st
  = (Returns internal_error_response, with_globals st g).
Proof.
  intros P N D. unfold detect_product, try_except, run_cnn.
  unfold bind at 1. rewrite P. apply String.eqb_neq in N. rewrite N.
  unfold bind at 1. unfold lift at 1. now rewrite D.
Qed.

(** Looking a row up by its own class name succeeds, in any letter case of
    the label, and the row found has that class name; a class name is
    already lower-case. *)
Theorem catalogue_lookup_by_class_name (df : list CatalogRow)
  (row : CatalogRow) (label : string) :
  In row df ->
  lower label = class_name (Description row) ->
  lower (class_name (Description row)) = class_name (Description row)
  /\ exists row',
       find (describes label) df = Some row'
       /\ class_name (Description row') = class_name (Description row).
Proof.
  intros I L. split; [apply lower_class_name|].
  assert (D : describes label row = true)
    by (unfold describes; rewrite L; apply String.eqb_refl).
  destruct (find (describes label) df) as [row'|] eqn:F.
  - exists row'. split; [reflexivity|].
    apply find_some in F. destruct F as [_ F]. unfold describes in F.
    apply String.eqb_eq in F. congruence.
  - exfalso. pose proof (find_none _ _ F row I). congruence.
Qed.

End DetectEndpoint.

(** * The further properties at concrete inputs *)

(** The sample tokens stay within 100, and so does the confidence. *)
Lemma tesseract_confidence_at_most_one_witness :
  Forall (fun c => (c <= 100)%Z) (data_conf (of_tokens sample_tokens))
  /\ exists t,
       ocr_with_tesseract keyless_world no_image [] = (Returns t, [LocalOCR])
       /\ 0 <= Engine.confidence t <= 1.
Proof.
  assert (F : Forall (fun c => (c <= 100)%Z)
                (data_conf (of_tokens sample_tokens)))
    by (simpl; repeat (apply Forall_cons; [lia|]); apply Forall_nil).
  split; [exact F|].
  apply (tesseract_confidence_at_most_one keyless_world no_image
           (of_tokens sample_tokens) []); [reflexivity | exact F].
Defined.

(** Three texts against two confidences: the third index is out of range. *)
Lemma tesseract_error_iff_short_column_witness :
  exists t,
    ocr_with_tesseract ragged_world no_image [] = (Returns t, [LocalOCR])
    /\ (Engine.error t = None <-> (3 <= 2)%nat)
    /\ ((2 < 3)%nat -> t = failed (Exception "list index out of range")).
Proof.
  apply (tesseract_error_iff_short_column ragged_world no_image
           {| data_text := ["foo"; "bar"; "baz"];
              data_conf := [96%Z; 90%Z] |} []).
  - reflexivity.
  - simpl. repeat (apply Forall_cons; [lia|]). apply Forall_nil.
Defined.

(** A cloud answer of two blanks leaves the decision to the local engine. *)
Lemma cloud_unusable_falls_back_to_local_witness :
  cloud_unusable blank_cloud_world no_image
  /\ exists r t,
       ocr_with_tesseract blank_cloud_world no_image [CloudOCR]
       = (Returns t, [CloudOCR; LocalOCR])
       /\ extract_text_with_fallback blank_cloud_world no_image []
          = (Returns r, [CloudOCR; LocalOCR])
       /\ from_engine r t "tesseract".
Proof.
  split; [reflexivity|].
  apply (cloud_unusable_falls_back_to_local blank_cloud_world no_image);
    reflexivity.
Defined.

(** The sample tokens give a result confidence within [0, 1]. *)
Lemma confidence_in_unit_interval_witness :
  exists r log,
    extract_text_with_fallback short_cloud_world no_image [] = (Returns r, log)
    /\ 0 <= Result.confidence r <= 1.
Proof.
  apply (confidence_in_unit_interval short_cloud_world no_image).
  intros data E. injection E as <-. simpl.
  repeat (apply Forall_cons; [lia|]). apply Forall_nil.
Defined.

(** Class 7 has no label: "UNKNOWN" comes with the model's confidence. *)
Lemma unknown_for_unlabelled_class_witness :
  predict_stockcode_from_image unlabelled_classifier no_image no_globals
  = (Returns ("UNKNOWN", 3 # 5),
     {| _model := Some (KerasModel 0);
        _label_map := Some (Converted [(0%Z, "lunch_bag")]) |}).
Proof.
  apply (unknown_for_unlabelled_class unlabelled_classifier no_image
           no_globals _ (KerasModel 0) [(0%Z, "lunch_bag")] 7%Z (3 # 5));
    try reflexivity.
  intros v [H|[]]. discriminate.
Defined.

(** A model file that cannot be loaded makes the classifier raise. *)
Lemma model_load_failure_escapes_witness :
  predict_stockcode_from_image unloadable_classifier no_image no_globals
  = (Raises boom, no_globals).
Proof.
  apply (model_load_failure_escapes unloadable_classifier no_image
           no_globals boom); reflexivity.
Defined.

(** The key "one" is no integer: the call raises, the object stays in the
    global as read, and the next call answers "UNKNOWN". *)
Lemma label_map_load_failure_escapes_witness :
  convert_keys digits_int (JsonObject misnamed_labels)
  = Raises (Exception "invalid literal for int() with base 10")
  /\ predict_stockcode_from_image misnamed_labels_classifier no_image
       no_globals
     = (Raises (Exception "invalid literal for int() with base 10"),
        {| _model := Some (KerasModel 0);
           _label_map := Some (RawObject misnamed_labels) |})
  /\ predict_stockcode_from_image misnamed_labels_classifier no_image
       {| _model := Some (KerasModel 0);
          _label_map := Some (RawObject misnamed_labels) |}
     = (Returns ("UNKNOWN", 3 # 5),
        {| _model := Some (KerasModel 0);
           _label_map := Some (RawObject misnamed_labels) |}).
Proof.
  split; [reflexivity|].
  pose proof (label_map_load_failure_escapes misnamed_labels_classifier
                no_image (KerasModel 0)
                (Exception "invalid literal for int() with base 10")
                eq_refl) as (_ & C & L).
  split.
  - exact (C (JsonObject misnamed_labels) eq_refl eq_refl).
  - exact (L misnamed_labels misnamed_labels_classifier no_image).
Defined.

(** With both globals set, a world without files classifies all the same. *)
Lemma loaded_globals_ignore_files_witness :
  predict_stockcode_from_image no_classifier no_image loaded_globals
  = (Returns ("ERROR", 0), loaded_globals).
Proof.
  apply (loaded_globals_ignore_files no_classifier no_image loaded_globals
           (KerasModel 0) [(0%Z, "lunch_bag")]); reflexivity.
Defined.

(** The first call loads the lunch-bag classifier and keeps it. *)
Lemma first_call_caches_witness :
  exists r,
    predict_stockcode_from_image lunch_bag_classifier no_image no_globals
    = (r, {| _model := Some (KerasModel 0);
             _label_map := Some (Converted [(0%Z, "lunch_bag_pink_polkadot")]) |})
    /\ forall w',
         model_predict w' = model_predict lunch_bag_classifier ->
         predict_stockcode_from_image w' no_image
           {| _model := Some (KerasModel 0);
              _label_map := Some (Converted [(0%Z, "lunch_bag_pink_polkadot")]) |}
         = (r, {| _model := Some (KerasModel 0);
                  _label_map := Some (Converted [(0%Z, "lunch_bag_pink_polkadot")]) |}).
Proof.
  apply (first_call_caches lunch_bag_classifier no_image (KerasModel 0)
           (JsonObject [("0", "lunch_bag_pink_polkadot")])
           [(0%Z, "lunch_bag_pink_polkadot")]); reflexivity.
Defined.

(** An index that raises yields no products. *)
Lemma search_failure_gives_no_products_witness :
  search_related_products (app_of keyless_world no_classifier (Some broken_db))
    (VStr "red clock") 5 fresh
  = (Returns [], queried fresh (VStr "red clock") 5).
Proof.
  apply (search_failure_gives_no_products
           (app_of keyless_world no_classifier (Some broken_db))
           broken_db (VStr "red clock") 5 boom fresh); reflexivity.
Defined.

(** Two matches, two products; the bare match gets the defaults. *)
Lemma search_products_in_order_witness :
  search_related_products (app_of keyless_world no_classifier (Some sample_db))
    (VStr "lunch bag") 5 fresh
  = (Returns [product_of lunch_bag_match; product_of bare_match],
     queried fresh (VStr "lunch bag") 5).
Proof.
  apply (search_products_in_order
           (app_of keyless_world no_classifier (Some sample_db))
           sample_db (VStr "lunch bag") 5
           [("matches", VList [lunch_bag_match; bare_match])]
           [lunch_bag_match; bare_match] fresh); try reflexivity.
  repeat (apply Forall_cons; [reflexivity|]). apply Forall_nil.
Defined.

(** The second of three matches has no "id": the search raises. *)
Lemma match_without_id_raises_witness :
  search_related_products
    (app_of keyless_world no_classifier (Some malformed_db))
    (VStr "lunch bag") 5 fresh
  = (Raises (Exception "'id'"), queried fresh (VStr "lunch bag") 5).
Proof.
  apply (match_without_id_raises
           (app_of keyless_world no_classifier (Some malformed_db))
           malformed_db (VStr "lunch bag") 5
           [("matches", VList [lunch_bag_match; headless_match; bare_match])]
           [("score", VNum (1 # 2))] [lunch_bag_match] [bare_match] fresh);
    try reflexivity.
  apply Forall_cons; [reflexivity | apply Forall_nil].
Defined.

(** An empty "query" string is refused. *)
Lemma recommend_rejects_empty_query_witness :
  recommend (app_of keyless_world no_classifier (Some sample_db))
    (VDict [("query", VStr "")]) fresh
  = (Returns empty_query_response, fresh).
Proof.
  apply (recommend_rejects_empty_query
           (app_of keyless_world no_classifier (Some sample_db))
           [("query", VStr "")] fresh).
  reflexivity.
Defined.

(** Two matches are reported as "Found 2 products.". *)
Lemma recommend_reports_match_count_witness :
  recommend (app_of keyless_world no_classifier (Some sample_db))
    (VDict [("query", VStr "lunch bag")]) fresh
  = (Returns {| body :=
                  VDict [("response", VStr "Found 2 products.");
                         ("products",
                          VList [product_of lunch_bag_match;
                                 product_of bare_match])];
                status := 200 |},
     queried fresh (VStr "lunch bag") 5).
Proof.
  apply (recommend_reports_match_count
           (app_of keyless_world no_classifier (Some sample_db))
           sample_db [("query", VStr "lunch bag")]
           [("matches", VList [lunch_bag_match; bare_match])]
           (VStr "lunch bag") [lunch_bag_match; bare_match] fresh);
    try reflexivity.
  repeat (apply Forall_cons; [reflexivity|]). apply Forall_nil.
Defined.

(** Both engines raise: the endpoint answers 200 with nothing in it. *)
Lemma recommend_ocr_without_text_witness :
  exists log,
    recommend_ocr (app_of broken_world no_classifier (Some sample_db))
      (Some no_image) fresh
    = (Returns {| body := VDict [("extracted_text", VStr "");
                                 ("confidence", VNum 0);
                                 ("response", VStr "Query: ''");
                                 ("products", VList [])];
                  status := 200 |},
       consulted fresh log).
Proof.
  apply (recommend_ocr_without_text
           (app_of broken_world no_classifier (Some sample_db))
           no_image boom fresh); [reflexivity | right; exact I].
Defined.

(** A word read at confidence 0.35 carries the note and is searched. *)
Lemma recommend_ocr_searches_cleaned_text_witness :
  extract_text_with_fallback faint_world no_image []
  = (Returns {| Result.extracted_text := "Tea"; Result.cleaned_text := "tea";
                Result.confidence := 7 # 20; Result.ocr_source := "tesseract";
                Result.notes := low_confidence_note |}, [LocalOCR])
  /\ exists o,
       recommend_ocr (app_of faint_world no_classifier (Some sample_db))
         (Some no_image) fresh
       = (o, queried (consulted fresh [LocalOCR]) (VStr "tea") 5).
Proof.
  split; [reflexivity|].
  apply (recommend_ocr_searches_cleaned_text
           (app_of faint_world no_classifier (Some sample_db)) no_image
           sample_db
           {| Result.extracted_text := "Tea"; Result.cleaned_text := "tea";
              Result.confidence := 7 # 20; Result.ocr_source := "tesseract";
              Result.notes := low_confidence_note |} [LocalOCR] fresh);
    [reflexivity | discriminate | reflexivity].
Defined.

(** The same word against an index with a match that has no "id". *)
Lemma recommend_ocr_lets_key_error_escape_witness :
  recommend_ocr (app_of faint_world no_classifier (Some malformed_db))
    (Some no_image) fresh
  = (Raises (Exception "'id'"),
     queried (consulted fresh [LocalOCR]) (VStr "tea") 5).
Proof.
  apply (recommend_ocr_lets_key_error_escape
           (app_of faint_world no_classifier (Some malformed_db)) no_image
           malformed_db
           {| Result.extracted_text := "Tea"; Result.cleaned_text := "tea";
              Result.confidence := 7 # 20; Result.ocr_source := "tesseract";
              Result.notes := low_confidence_note |} [LocalOCR]
           [("matches", VList [lunch_bag_match; headless_match; bare_match])]
           [("score", VNum (1 # 2))] [lunch_bag_match] [bare_match] fresh);
    try reflexivity; [discriminate|].
  apply Forall_cons; [reflexivity | apply Forall_nil].
Defined.

(** Class 7 has no label: the endpoint answers "UNKNOWN" and stops. *)
Lemma detect_product_unknown_witness :
  detect_product (app_of keyless_world unlabelled_classifier (Some sample_db))
    (Some no_image) fresh
  = (Returns not_identified_response,
     with_globals fresh
       {| _model := Some (KerasModel 0);
          _label_map := Some (Converted [(0%Z, "lunch_bag")]) |}).
Proof.
  apply (detect_product_unknown
           (app_of keyless_world unlabelled_classifier (Some sample_db))
           no_image (3 # 5)); reflexivity.
Defined.

(** With no model file the classifier answers "ERROR", and the endpoint
    searches the index for "ERROR". *)
Lemma detect_product_unlisted_label_witness :
  predict_stockcode_from_image no_classifier no_image no_globals
  = (Returns ("ERROR", 0), no_globals)
  /\ detect_product (app_of keyless_world no_classifier (Some sample_db))
       (Some no_image) fresh
     = (Returns (identified_response "UNKNOWN" "ERROR" "ERROR" 0
                   [product_of lunch_bag_match; product_of bare_match]),
        queried (with_globals fresh no_globals) (VStr "ERROR") 5).
Proof.
  split; [reflexivity|].
  apply (detect_product_unlisted_label
           (app_of keyless_world no_classifier (Some sample_db)) no_image
           "ERROR" 0 no_globals sample_catalog
           [product_of lunch_bag_match; product_of bare_match] fresh);
    try reflexivity; [discriminate|].
  intros row [<-|[<-|[]]]; reflexivity.
Defined.

(** The lunch bag is found in the catalogue under stock code 22384. *)
Lemma detect_product_catalogue_match_witness :
  detect_product (app_of keyless_world lunch_bag_classifier (Some sample_db))
    (Some no_image) fresh
  = (Returns (identified_response "22384" "lunch_bag_pink_polkadot"
                "Lunch Bag Pink Polkadot" (3 # 5)
                [product_of lunch_bag_match; product_of bare_match]),
     queried (with_globals fresh
                {| _model := Some (KerasModel 0);
                   _label_map := Some (Converted [(0%Z, "lunch_bag_pink_polkadot")]) |})
       (VStr "Lunch Bag Pink Polkadot") 5).
Proof.
  apply (detect_product_catalogue_match
           (app_of keyless_world lunch_bag_classifier (Some sample_db))
           no_image "lunch_bag_pink_polkadot" (3 # 5)
           {| _model := Some (KerasModel 0);
              _label_map := Some (Converted [(0%Z, "lunch_bag_pink_polkadot")]) |}
           sample_catalog
           {| Description := "Lunch Bag Pink Polkadot";
              StockCode := "22384" |}
           [product_of lunch_bag_match; product_of bare_match] fresh);
    try reflexivity.
  discriminate.
Defined.

(** A model file that cannot be loaded ends in the 500 response. *)
Lemma detect_product_load_failure_witness :
  detect_product (app_of keyless_world unloadable_classifier (Some sample_db))
    (Some no_image) fresh
  = (Returns internal_error_response, with_globals fresh no_globals).
Proof.
  apply (detect_product_load_failure
           (app_of keyless_world unloadable_classifier (Some sample_db))
           no_image boom fresh); reflexivity.
Defined.

(** Without a catalogue the recognised lunch bag ends in the 500 response. *)
Lemma detect_product_without_catalogue_witness :
  detect_product uncatalogued_app (Some no_image) fresh
  = (Returns internal_error_response,
     with_globals fresh
       {| _model := Some (KerasModel 0);
          _label_map := Some (Converted [(0%Z, "lunch_bag_pink_polkadot")]) |}).
Proof.
  apply (detect_product_without_catalogue uncatalogued_app no_image
           "lunch_bag_pink_polkadot" (3 # 5)); try reflexivity.
  discriminate.
Defined.

(** The alarm clock is found under a label in mixed case. *)
Lemma catalogue_lookup_by_class_name_witness :
  class_name "ALARM CLOCK BAKELIKE RED " = "alarm_clock_bakelike_red"
  /\ PyStr.lower "alarm_clock_bakelike_red" = "alarm_clock_bakelike_red"
  /\ exists row',
       find (describes "Alarm_Clock_Bakelike_RED") sample_catalog = Some row'
       /\ class_name (Description row') = "alarm_clock_bakelike_red".
Proof.
  split; [reflexivity|].
  apply (catalogue_lookup_by_class_name sample_catalog
           {| Description := "ALARM CLOCK BAKELIKE RED ";
              StockCode := "22727" |} "Alarm_Clock_Bakelike_RED");
    [left; reflexivity | reflexivity].
Defined.
